(** * dbt ingestion source: a shallow embedding of
      [metadata-ingestion/src/datahub/ingestion/source/dbt.py]

    The module reads two parsed JSON documents (a dbt manifest and a dbt
    catalog), joins them by key and produces one metadata work unit per
    surviving manifest entry.  Python values are embedded as the type
    [json]; Python exceptions as the error side of [result]. *)

From Stdlib Require Import String Ascii List ZArith QArith Bool Lia.
Import ListNotations.
Local Open Scope string_scope.
Local Open Scope Z_scope.

Set Warnings "-register-all".

(** ** Values of a parsed JSON document

    [json.load] yields [None], [bool], [int], [float], [str], [list] and
    [dict] (string keys, insertion ordered).  A dict is kept as an
    association list so that iteration order is the document order. *)

Inductive json : Type :=
| JNull
| JBool (b : bool)
| JInt (z : Z)
| JFloat (q : Q)
| JStr (s : string)
| JList (l : list json)
| JDict (d : list (string * json)).

Definition pydict := list (string * json).

(** ** Exceptions *)

Inductive PyError : Type :=
| KeyError (key : json)
| IndexError
| TypeError
| AttributeError.

Inductive result (A : Type) : Type :=
| Ok (a : A)
| Err (e : PyError).

Arguments Ok {A} a.
Arguments Err {A} e.

Definition bind {A B} (r : result A) (f : A -> result B) : result B :=
  match r with
  | Ok a => f a
  | Err e => Err e
  end.

Notation "x <- c ;; k" := (bind c (fun x => k))
  (at level 61, c at next level, right associativity).

(** A [for] loop whose body may raise and whose only effect is to append
    one value per iteration. *)
Fixpoint mapM {A B} (f : A -> result B) (xs : list A) : result (list B) :=
  match xs with
  | [] => Ok []
  | x :: xs' =>
      y <- f x ;;
      ys <- mapM f xs' ;;
      Ok (y :: ys)
  end.

(** ** Strings *)

Definition dquote : ascii := "034"%char.

(** [s.replace(old, new)] for a pattern [old] of one character. *)
Fixpoint str_replace (old : ascii) (new : string) (s : string) : string :=
  match s with
  | EmptyString => EmptyString
  | String c s' =>
      if Ascii.eqb c old then new ++ str_replace old new s'
      else String c (str_replace old new s')
  end.

(** [c in s] for a one-character [c]. *)
Fixpoint str_contains_char (c : ascii) (s : string) : bool :=
  match s with
  | EmptyString => false
  | String c' s' => Ascii.eqb c' c || str_contains_char c s'
  end.

Definition has_quote (s : string) : bool := str_contains_char dquote s.

(** ** The identifier resolver, [get_urn_from_dbtNode] *)

Definition get_urn_from_dbtNode
    (database schema name target_platform env : string) : string :=
  let db_fqn := str_replace dquote "" (database ++ "." ++ schema ++ "." ++ name) in
  "urn:li:dataset:(urn:li:dataPlatform:" ++ target_platform ++ "," ++ db_fqn
    ++ "," ++ env ++ ")".

(** ** Python containers

    Dictionaries are association lists read from the front; assignment to
    an existing key replaces the value where the key already stands, and a
    new key goes to the end, as in an insertion-ordered [dict]. *)

Fixpoint dict_get {A} (k : string) (d : list (string * A)) : option A :=
  match d with
  | [] => None
  | (k', v) :: d' => if String.eqb k' k then Some v else dict_get k d'
  end.

Definition dict_mem {A} (k : string) (d : list (string * A)) : bool :=
  match dict_get k d with
  | Some _ => true
  | None => false
  end.

Fixpoint dict_set {A} (k : string) (v : A) (d : list (string * A))
  : list (string * A) :=
  match d with
  | [] => [(k, v)]
  | (k', v') :: d' =>
      if String.eqb k' k then (k', v) :: d' else (k', v') :: dict_set k v d'
  end.

(** The dict display [{**a, **b}]. *)
Definition dict_merge {A} (a b : list (string * A)) : list (string * A) :=
  fold_left (fun acc kv => dict_set (fst kv) (snd kv) acc) b a.

(** A value usable as a sequence index: [int], or [bool] as 0 and 1. *)
Definition as_index (key : json) : option Z :=
  match key with
  | JInt z => Some z
  | JBool b => Some (if b then 1 else 0)
  | _ => None
  end.

Definition seq_index {A} (l : list A) (i : Z) : result A :=
  let n := Z.of_nat (length l) in
  let j := if i <? 0 then i + n else i in
  if (j <? 0) || (n <=? j) then Err IndexError
  else match nth_error l (Z.to_nat j) with
       | Some x => Ok x
       | None => Err IndexError
       end.

Definition str_chars (s : string) : list json :=
  map (fun c => JStr (String c EmptyString)) (list_ascii_of_string s).

(** [d[key]] on a dict whose keys are all strings: an unhashable key is a
    [TypeError], any other key that is not present a [KeyError]. *)
Definition dict_getitem (d : pydict) (key : json) : result json :=
  match key with
  | JStr k =>
      match dict_get k d with
      | Some v => Ok v
      | None => Err (KeyError key)
      end
  | JList _ | JDict _ => Err TypeError
  | _ => Err (KeyError key)
  end.

(** The subscript [obj[key]]. *)
Definition getitem (obj key : json) : result json :=
  match obj with
  | JDict d => dict_getitem d key
  | JList l =>
      match as_index key with
      | Some i => seq_index l i
      | None => Err TypeError
      end
  | JStr s =>
      match as_index key with
      | Some i => seq_index (str_chars s) i
      | None => Err TypeError
      end
  | _ => Err TypeError
  end.

Definition getitem_str (obj : json) (k : string) : result json :=
  getitem obj (JStr k).

(** The values a [for] loop over [obj] visits. *)
Definition py_iter (obj : json) : result (list json) :=
  match obj with
  | JList l => Ok l
  | JDict d => Ok (map (fun kv => JStr (fst kv)) d)
  | JStr s => Ok (str_chars s)
  | _ => Err TypeError
  end.

Definition json_eq_str (k : string) (j : json) : bool :=
  match j with
  | JStr s => String.eqb s k
  | _ => false
  end.

(** [k in obj] for a string [k]. *)
Definition py_contains (k : string) (obj : json) : result bool :=
  match obj with
  | JDict d => Ok (dict_mem k d)
  | JList l => Ok (existsb (json_eq_str k) l)
  | JStr s =>
      Ok (match String.index 0 k s with Some _ => true | None => false end)
  | _ => Err TypeError
  end.

(** [obj.keys()]. *)
Definition py_keys (obj : json) : result (list string) :=
  match obj with
  | JDict d => Ok (map fst d)
  | _ => Err AttributeError
  end.

(** [d.get(key)] on a dict whose keys are all strings. *)
Definition dict_get_method {A} (d : list (string * A)) (key : json)
  : result (option A) :=
  match key with
  | JStr k => Ok (dict_get k d)
  | JList _ | JDict _ => Err TypeError
  | _ => Ok None
  end.

(** [{**a, **b}] on two parsed values: both must be mappings. *)
Definition py_merge (a b : json) : result pydict :=
  match a, b with
  | JDict da, JDict db => Ok (dict_merge da db)
  | _, _ => Err TypeError
  end.

(** [int(x)] on a float: truncation towards zero. *)
Definition py_int (x : Q) : Z := Z.quot (Qnum x) (Zpos (Qden x)).

(** ** Records of the module *)

Record DBTConfig := {
  env : string;
  target_platform : string;
  load_schemas : bool;
  node_type_pattern : json -> result bool
}.

Record DBTColumn := {
  col_name : json;
  col_comment : json;
  col_index : json;
  col_data_type : json
}.

Record DBTNode := {
  dbt_name : string;
  database : json;
  schema : json;
  dbt_file_path : json;
  node_type : json;
  materialization : json;
  name : json;
  columns : list DBTColumn;
  upstream_urns : list string;
  datahub_urn : string
}.

(** ** Metadata model classes (declared in [datahub.metadata]) *)

Inductive TypeClass : Type :=
| BooleanTypeClass
| BytesTypeClass
| StringTypeClass
| NumberTypeClass
| DateTypeClass
| TimeTypeClass
| EnumTypeClass
| NullTypeClass
| MapTypeClass
| ArrayTypeClass
| UnionTypeClass
| RecordTypeClass.

Record AuditStamp := { time : Z; actor : string }.

Inductive DatasetLineageTypeClass : Type :=
| COPY
| TRANSFORMED
| VIEW.

Record UpstreamClass := {
  dataset : string;
  auditStamp : AuditStamp;
  type : DatasetLineageTypeClass
}.

Record UpstreamLineage := { upstreams : list UpstreamClass }.

Record SchemaFieldDataType := { data_type : TypeClass }.

Record SchemaField := {
  fieldPath : json;
  nativeDataType : json;
  field_type : SchemaFieldDataType;
  description : json;
  nullable : bool;
  recursive : bool
}.

Record MySqlDDL := { tableSchema : string }.

Record SchemaMetadata := {
  schemaName : string;
  platform : string;
  version : Z;
  hash : string;
  platformSchema : MySqlDDL;
  created : AuditStamp;
  lastModified : AuditStamp;
  fields : list SchemaField
}.

Record DatasetPropertiesClass := {
  dp_description : string;
  customProperties : pydict;
  tags : list string
}.

Inductive Aspect : Type :=
| PropertiesAspect (p : DatasetPropertiesClass)
| LineageAspect (u : UpstreamLineage)
| SchemaAspect (s : SchemaMetadata).

Record DatasetSnapshot := { urn : string; aspects : list Aspect }.

Record MetadataChangeEvent := { proposedSnapshot : DatasetSnapshot }.

Record MetadataWorkUnit := { id : string; mce : MetadataChangeEvent }.

(** Modelled from the spec: [SourceReport] (datahub.ingestion.api.source)
    is the run report, accumulating per-record acknowledgments and the
    non-fatal warnings, each with the dataset it is about and its text. *)
Record SourceReport := {
  workunit_ids : list string;
  warnings : list (string * string)
}.

Definition empty_report : SourceReport :=
  {| workunit_ids := []; warnings := [] |}.

Definition report_warning (r : SourceReport) (key reason : string)
  : SourceReport :=
  {| workunit_ids := workunit_ids r;
     warnings := warnings r ++ [(key, reason)] |}.

Definition report_workunit (r : SourceReport) (wu : MetadataWorkUnit)
  : SourceReport :=
  {| workunit_ids := workunit_ids r ++ [id wu];
     warnings := warnings r |}.

(** ** Sample documents

    A manifest with one model that depends on one source, and the catalog
    that goes with it; the values used at the concrete checks below. *)

Module Samples.

Definition column (name type_ : string) (index : Z) : json :=
  JDict [("type", JStr type_); ("index", JInt index);
         ("name", JStr name); ("comment", JStr "")].

Definition raw_events : json :=
  JDict [("resource_type", JStr "source");
         ("database", JStr "db");
         ("schema", JStr "public");
         ("original_file_path", JStr "models/sources.yml");
         ("name", JStr "raw_events");
         ("identifier", JStr "raw_events_v1");
         ("config", JDict [("enabled", JBool true)])].

Definition orders : json :=
  JDict [("resource_type", JStr "model");
         ("database", JStr "db");
         ("schema", JStr "public");
         ("original_file_path", JStr "models/orders.sql");
         ("name", JStr "orders");
         ("config", JDict [("materialized", JStr "table")]);
         ("depends_on",
          JDict [("nodes", JList [JStr "source.shop.raw_events"])])].

Definition manifest_nodes : pydict := [("model.shop.orders", orders)].

Definition manifest_sources : pydict :=
  [("source.shop.raw_events", raw_events)].

Definition manifest : json :=
  JDict [("nodes", JDict manifest_nodes);
         ("sources", JDict manifest_sources)].

Definition orders_catalog : json :=
  JDict [("metadata", JDict [("type", JStr "BASE TABLE")]);
         ("columns",
          JDict [("id", column "id" "integer" 1);
                 ("label", column "label" "varchar(255)" 2);
                 ("shape", column "shape" "totally_unknown_type" 3)])].

Definition raw_events_catalog : json :=
  JDict [("metadata", JDict [("type", JStr "BASE TABLE")]);
         ("columns",
          JDict [("payload", column "payload" "text" 2);
                 ("at", column "at" "date" 1)])].

Definition catalog_nodes : pydict :=
  [("model.shop.orders", orders_catalog)].

Definition catalog_sources : pydict :=
  [("source.shop.raw_events", raw_events_catalog)].

Definition catalog : json :=
  JDict [("nodes", JDict catalog_nodes);
         ("sources", JDict catalog_sources)].

(** A model whose only dependency is not an entry of the manifest. *)
Definition dangling : json :=
  JDict [("resource_type", JStr "model");
         ("database", JStr "db");
         ("schema", JStr "public");
         ("original_file_path", JStr "models/late.sql");
         ("name", JStr "late");
         ("config", JDict [("materialized", JStr "view")]);
         ("depends_on", JDict [("nodes", JList [JStr "model.shop.gone"])])].

Definition dangling_nodes : pydict := [("model.shop.late", dangling)].

Definition manifest_dangling : json :=
  JDict [("nodes", JDict dangling_nodes);
         ("sources", JDict manifest_sources)].

(** A manifest whose [nodes] has an entry under the key of a source. *)
Definition overlap_nodes : pydict :=
  [("source.shop.raw_events", dangling); ("model.shop.orders", orders)].

Definition manifest_overlap : json :=
  JDict [("nodes", JDict overlap_nodes);
         ("sources", JDict manifest_sources)].

Definition allow_all (resource_type : json) : result bool :=
  match resource_type with
  | JStr _ => Ok true
  | _ => Err TypeError
  end.

Definition deny_models (resource_type : json) : result bool :=
  match resource_type with
  | JStr s => Ok (negb (String.eqb s "model"))
  | _ => Err TypeError
  end.

(** [str] of the values that are not strings, as far as the samples
    need it. *)
Definition py_str (v : json) : string :=
  match v with
  | JNull => "None"
  | JBool true => "True"
  | JBool false => "False"
  | _ => ""
  end.

Definition POSTGRES_TYPES_MAP : list (string * option TypeClass) :=
  [("uuid", Some StringTypeClass); ("bytea", Some BytesTypeClass);
   ("text", Some StringTypeClass); ("xid8", None)].

Definition SNOWFLAKE_TYPES_MAP : list (string * option TypeClass) :=
  [("NUMBER", Some NumberTypeClass); ("VARCHAR", Some StringTypeClass);
   ("date", Some DateTypeClass)].

(** [s.endswith(suffix)]. *)
Fixpoint ends_with (suffix s : string) : bool :=
  String.eqb s suffix
  || match s with
     | EmptyString => false
     | String _ s' => ends_with suffix s'
     end.

Definition resolve_postgres_modified_type (type_string : json)
  : result (option TypeClass) :=
  match type_string with
  | JStr s =>
      Ok (if ends_with "[]" s then Some ArrayTypeClass
          else if String.prefix "varchar(" s then Some StringTypeClass
          else if String.prefix "numeric(" s then Some NumberTypeClass
          else None)
  | _ => Err AttributeError
  end.

(** A metadata model in which an array type cannot be made without its
    nested type. *)
Definition call_vendor_class (c : TypeClass) : option PyError :=
  match c with
  | ArrayTypeClass => Some TypeError
  | _ => None
  end.

(** A clock that starts half a second after 1700000000 and advances
    by a quarter of a second at each reading. *)
Definition time_time (n : nat) : Q :=
  Qmake (6800000002 + Z.of_nat n) 4.

(** The node of [raw_events] as extracted with schema loading on. *)
Definition raw_events_node : DBTNode :=
  {| dbt_name := "source.shop.raw_events";
     database := JStr "db";
     schema := JStr "public";
     dbt_file_path := JStr "models/sources.yml";
     node_type := JStr "source";
     materialization := JStr "BASE TABLE";
     name := JStr "raw_events";
     columns :=
       [{| col_name := JStr "payload"; col_comment := JStr "";
           col_index := JInt 2; col_data_type := JStr "text" |};
        {| col_name := JStr "at"; col_comment := JStr "";
           col_index := JInt 1; col_data_type := JStr "date" |}];
     upstream_urns := [];
     datahub_urn :=
       "urn:li:dataset:(urn:li:dataPlatform:postgres,db.public.raw_events,PROD)" |}.

(** A platform tag written with its double quotes. *)
Definition quoted_platform : string :=
  String dquote ("postgres" ++ String dquote EmptyString).

Definition config (load : bool) (pattern : json -> result bool) : DBTConfig :=
  {| env := "PROD"; target_platform := "postgres";
     load_schemas := load; node_type_pattern := pattern |}.

(** The node of [orders] as extracted with schema loading on. *)
Definition orders_node : DBTNode :=
  {| dbt_name := "model.shop.orders";
     database := JStr "db";
     schema := JStr "public";
     dbt_file_path := JStr "models/orders.sql";
     node_type := JStr "model";
     materialization := JStr "table";
     name := JStr "orders";
     columns :=
       [{| col_name := JStr "id"; col_comment := JStr "";
           col_index := JInt 1; col_data_type := JStr "integer" |};
        {| col_name := JStr "label"; col_comment := JStr "";
           col_index := JInt 2; col_data_type := JStr "varchar(255)" |};
        {| col_name := JStr "shape"; col_comment := JStr "";
           col_index := JInt 3; col_data_type := JStr "totally_unknown_type" |}];
     upstream_urns :=
       ["urn:li:dataset:(urn:li:dataPlatform:postgres,db.public.raw_events,PROD)"];
     datahub_urn :=
       "urn:li:dataset:(urn:li:dataPlatform:postgres,db.public.orders,PROD)" |}.

(** Two models and no source: an ephemeral one and one built on it. *)
Definition staging_fields : pydict :=
  [("resource_type", JStr "model");
   ("database", JStr "db");
   ("schema", JStr "public");
   ("original_file_path", JStr "models/staging.sql");
   ("name", JStr "staging");
   ("config", JDict [("materialized", JStr "ephemeral")]);
   ("depends_on", JDict [("nodes", JList [])])].

Definition summary : json :=
  JDict [("resource_type", JStr "model");
         ("database", JStr "db");
         ("schema", JStr "public");
         ("original_file_path", JStr "models/summary.sql");
         ("name", JStr "summary");
         ("config", JDict [("materialized", JStr "table")]);
         ("depends_on", JDict [("nodes", JList [JStr "model.shop.staging"])])].

Definition models_only : pydict :=
  [("model.shop.staging", JDict staging_fields);
   ("model.shop.summary", summary)].

(** A model written without its schema. *)
Definition no_schema_fields : pydict :=
  [("resource_type", JStr "model");
   ("database", JStr "db");
   ("original_file_path", JStr "models/broken.sql");
   ("name", JStr "broken");
   ("config", JDict [("materialized", JStr "table")])].

Definition deny_all (resource_type : json) : result bool :=
  match resource_type with
  | JStr _ => Ok false
  | _ => Err TypeError
  end.

End Samples.

(** The state of a run that the driver threads through its loop: the
    shared report and the number of readings taken from the wall clock. *)
Record World := { w_report : SourceReport; w_ticks : nat }.

(** What a consumer that exhausts the generator [get_workunits] observes:
    the records yielded, in order, the exception that ended the iteration
    if one did, and the report as the run left it. *)
Record Trace := {
  yielded : list MetadataWorkUnit;
  raised : option PyError;
  final_report : SourceReport
}.

Section Source.

Set Default Proof Using "Type".

(** [str(v)] for a value that is not itself a string. *)
Variable py_str : json -> string.

(** The vendor tables and the resolver of [datahub.ingestion.source.dbt_types].
    Their values are typed [Any]: a class of the metadata model, or [None]. *)
Variables POSTGRES_TYPES_MAP SNOWFLAKE_TYPES_MAP
  : list (string * option TypeClass).
Variable resolve_postgres_modified_type : json -> result (option TypeClass).

(** [C()] for a class [C] of the metadata model that this module does not
    name itself and that only a vendor table or the vendor resolver can
    supply: [None] when the call returns the instance, the exception when
    it raises. *)
Variable call_vendor_class : TypeClass -> option PyError.

(** [time.time()]: the reading the wall clock gives at its n-th call. *)
Variable time_time : nat -> Q.

(** A replacement field [{v}] of an f-string. *)
Definition format_value (v : json) : string :=
  match v with
  | JStr s => s
  | _ => py_str v
  end.

Definition get_columns (catalog_node : json) : result (list DBTColumn) :=
  raw_columns <- getitem_str catalog_node "columns" ;;
  keys <- py_iter raw_columns ;;
  mapM (fun key =>
          raw_column <- getitem raw_columns key ;;
          comment <- getitem_str raw_column "comment" ;;
          data_type <- getitem_str raw_column "type" ;;
          index <- getitem_str raw_column "index" ;;
          name <- getitem_str raw_column "name" ;;
          Ok {| col_name := name; col_comment := comment;
                col_index := index; col_data_type := data_type |})
       keys.

Definition get_upstreams (upstreams : json) (all_nodes : pydict)
    (load_catalog : bool) (target_platform environment : string)
  : result (list string) :=
  items <- py_iter upstreams ;;
  mapM (fun upstream =>
          database <- (entry <- dict_getitem all_nodes upstream ;;
                       getitem_str entry "database") ;;
          schema <- (entry <- dict_getitem all_nodes upstream ;;
                     getitem_str entry "schema") ;;
          has_identifier <- (entry <- dict_getitem all_nodes upstream ;;
                             py_contains "identifier" entry) ;;
          name <- (if has_identifier && negb load_catalog
                   then entry <- dict_getitem all_nodes upstream ;;
                        getitem_str entry "identifier"
                   else entry <- dict_getitem all_nodes upstream ;;
                        getitem_str entry "name") ;;
          Ok (get_urn_from_dbtNode (format_value database)
                (format_value schema) (format_value name)
                target_platform environment))
       items.

Definition is_ephemeral (m : json) : bool := json_eq_str "ephemeral" m.

(** One turn of the loop of [extract_dbt_entities]: [None] when the
    entry is skipped by the node-type filter. *)
Definition extract_entity (nodes catalog : pydict) (load_catalog : bool)
    (target_platform environment : string)
    (node_type_pattern : json -> result bool)
    (key : string) (node : json) : result (option DBTNode) :=
  resource_type <- getitem_str node "resource_type" ;;
  allowed <- node_type_pattern resource_type ;;
  if negb allowed then Ok None else
  database <- getitem_str node "database" ;;
  schema <- getitem_str node "schema" ;;
  dbt_file_path <- getitem_str node "original_file_path" ;;
  node_type <- getitem_str node "resource_type" ;;
  has_identifier <- py_contains "identifier" node ;;
  name <- (if has_identifier && Bool.eqb load_catalog false
           then getitem_str node "identifier"
           else getitem_str node "name") ;;
  config <- getitem_str node "config" ;;
  config_keys <- py_keys config ;;
  mu <- (if existsb (String.eqb "materialized") config_keys then
           materialization <- (config <- getitem_str node "config" ;;
                               getitem_str config "materialized") ;;
           depends_on <- getitem_str node "depends_on" ;;
           upstreams <- getitem_str depends_on "nodes" ;;
           upstream_urns <- get_upstreams upstreams nodes load_catalog
                              target_platform environment ;;
           Ok (materialization, upstream_urns)
         else
           catalog_node <- dict_getitem catalog (JStr key) ;;
           metadata <- getitem_str catalog_node "metadata" ;;
           materialization <- getitem_str metadata "type" ;;
           Ok (materialization, [])) ;;
  columns <- (if negb (is_ephemeral (fst mu)) && load_catalog then
                catalog_node <- dict_getitem catalog (JStr key) ;;
                get_columns catalog_node
              else Ok []) ;;
  Ok (Some {| dbt_name := key;
              database := database;
              schema := schema;
              dbt_file_path := dbt_file_path;
              node_type := node_type;
              materialization := fst mu;
              name := name;
              columns := columns;
              upstream_urns := snd mu;
              datahub_urn :=
                get_urn_from_dbtNode (format_value database)
                  (format_value schema) (format_value name)
                  target_platform environment |}).

Fixpoint extract_loop (nodes catalog : pydict) (load_catalog : bool)
    (target_platform environment : string)
    (node_type_pattern : json -> result bool)
    (items : list (string * json)) : result (list DBTNode) :=
  match items with
  | [] => Ok []
  | (key, node) :: rest =>
      entity <- extract_entity nodes catalog load_catalog target_platform
                  environment node_type_pattern key node ;;
      dbt_entities <- extract_loop nodes catalog load_catalog
                        target_platform environment node_type_pattern rest ;;
      Ok (match entity with
          | Some dbtNode => dbtNode :: dbt_entities
          | None => dbt_entities
          end)
  end.

Definition extract_dbt_entities (nodes catalog : pydict)
    (load_catalog : bool) (target_platform environment : string)
    (node_type_pattern : json -> result bool) : result (list DBTNode) :=
  extract_loop nodes catalog load_catalog target_platform environment
    node_type_pattern nodes.

(** The two arguments stand for the documents parsed from
    [manifest_path] and [catalog_path]. *)
Definition loadManifestAndCatalog (dbt_manifest_json dbt_catalog_json : json)
    (load_catalog : bool) (target_platform environment : string)
    (node_type_pattern : json -> result bool) : result (list DBTNode) :=
  manifest_nodes <- getitem_str dbt_manifest_json "nodes" ;;
  manifest_sources <- getitem_str dbt_manifest_json "sources" ;;
  all_manifest_entities <- py_merge manifest_nodes manifest_sources ;;
  catalog_nodes <- getitem_str dbt_catalog_json "nodes" ;;
  catalog_sources <- getitem_str dbt_catalog_json "sources" ;;
  all_catalog_entities <- py_merge catalog_nodes catalog_sources ;;
  extract_dbt_entities all_manifest_entities all_catalog_entities
    load_catalog target_platform environment node_type_pattern.

Definition get_custom_properties (node : DBTNode) : pydict :=
  [("dbt_node_type", node_type node);
   ("materialization", materialization node);
   ("dbt_file_path", dbt_file_path node)].

(** [now] is the reading [time.time()] gives inside the call. *)
Definition get_upstream_lineage (now : Q) (upstream_urns : list string)
  : UpstreamLineage :=
  let actor := "urn:li:corpuser:dbt_executor" in
  let sys_time := py_int now * 1000 in
  {| upstreams :=
       map (fun dep =>
              {| dataset := dep;
                 auditStamp := {| time := sys_time; actor := actor |};
                 type := TRANSFORMED |})
           upstream_urns |}.

Definition _field_type_mapping : list (string * option TypeClass) :=
  dict_merge
    (dict_merge
       [("boolean", Some BooleanTypeClass);
        ("date", Some DateTypeClass);
        ("time", Some TimeTypeClass);
        ("numeric", Some NumberTypeClass);
        ("text", Some StringTypeClass);
        ("timestamp with time zone", Some DateTypeClass);
        ("timestamp without time zone", Some DateTypeClass);
        ("integer", Some NumberTypeClass);
        ("float8", Some NumberTypeClass)]
       POSTGRES_TYPES_MAP)
    SNOWFLAKE_TYPES_MAP.

(** [TypeClass()], line 292.  The six classes the module imports and names
    itself (lines 25-34) are the ones its own table and its fallback call
    without arguments; for the others the file does not show whether the
    call returns. *)
Definition instantiate (TypeClass0 : TypeClass) : option PyError :=
  match TypeClass0 with
  | BooleanTypeClass | DateTypeClass | TimeTypeClass | NumberTypeClass
  | StringTypeClass | NullTypeClass => None
  | _ => call_vendor_class TypeClass0
  end.

(** The report is a shared object: what was recorded before an exception
    stays recorded, so the report is returned on both outcomes. *)
Definition get_column_type (report : SourceReport) (dataset_name : string)
    (column_type : json) : SourceReport * result SchemaFieldDataType :=
  match dict_get_method _field_type_mapping column_type with
  | Err e => (report, Err e)
  | Ok found =>
      let TypeClass1 := match found with
                        | Some value => value
                        | None => None
                        end in
      match (match TypeClass1 with
             | None => resolve_postgres_modified_type column_type
             | Some c => Ok (Some c)
             end) with
      | Err e => (report, Err e)
      | Ok TypeClass2 =>
          let rc := match TypeClass2 with
                    | None =>
                        (report_warning report dataset_name
                           ("unable to map type " ++ format_value column_type
                              ++ " to metadata schema"),
                         NullTypeClass)
                    | Some c => (report, c)
                    end in
          match instantiate (snd rc) with
          | None => (fst rc, Ok {| data_type := snd rc |})
          | Some e => (fst rc, Err e)
          end
      end
  end.

Fixpoint canonical_schema (report : SourceReport) (dbt_name : string)
    (cols : list DBTColumn) : SourceReport * result (list SchemaField) :=
  match cols with
  | [] => (report, Ok [])
  | column :: rest =>
      match get_column_type report dbt_name (col_data_type column) with
      | (report1, Err e) => (report1, Err e)
      | (report1, Ok ty) =>
          let field := {| fieldPath := col_name column;
                          nativeDataType := col_data_type column;
                          field_type := ty;
                          description := col_comment column;
                          nullable := false;
                          recursive := false |} in
          match canonical_schema report1 dbt_name rest with
          | (report2, Err e) => (report2, Err e)
          | (report2, Ok fs) => (report2, Ok (field :: fs))
          end
      end
  end.

Definition get_schema_metadata (now : Q) (report : SourceReport)
    (node : DBTNode) (platform : string)
  : SourceReport * result SchemaMetadata :=
  match canonical_schema report (dbt_name node) (columns node) with
  | (report1, Err e) => (report1, Err e)
  | (report1, Ok fs) =>
      let actor := "urn:li:corpuser:dbt_executor" in
      let sys_time := py_int now * 1000 in
      (report1,
       Ok {| schemaName := dbt_name node;
             platform := "urn:li:dataPlatform:" ++ platform;
             version := 0;
             hash := "";
             platformSchema := {| tableSchema := "" |};
             created := {| time := sys_time; actor := actor |};
             lastModified := {| time := sys_time; actor := actor |};
             fields := fs |})
  end.

Record DBTSource := {
  config : DBTConfig;
  source_platform : string;
  report : SourceReport
}.

Definition create (config : DBTConfig) : DBTSource :=
  {| config := config; source_platform := "dbt"; report := empty_report |}.

(** The body of the loop of [get_workunits] for one node. *)
Definition emit_node (cfg : DBTConfig) (platform : string) (w : World)
    (node : DBTNode) : World * result MetadataWorkUnit :=
  let dbt_properties :=
    {| dp_description := dbt_name node;
       customProperties := get_custom_properties node;
       tags := [] |} in
  let aspects0 := [PropertiesAspect dbt_properties] in
  let upstreams :=
    Some (get_upstream_lineage (time_time (w_ticks w)) (upstream_urns node)) in
  let aspects1 :=
    match upstreams with
    | Some u => (aspects0 ++ [LineageAspect u])%list
    | None => aspects0
    end in
  let ticks1 := S (w_ticks w) in
  let finish (r : SourceReport) (ticks : nat) (aspects : list Aspect) :=
    let dataset_snapshot := {| urn := datahub_urn node; aspects := aspects |} in
    let mce := {| proposedSnapshot := dataset_snapshot |} in
    let wu := {| id := urn dataset_snapshot; mce := mce |} in
    ({| w_report := report_workunit r wu; w_ticks := ticks |}, Ok wu) in
  if load_schemas cfg then
    match get_schema_metadata (time_time ticks1) (w_report w) node platform with
    | (r, Err e) => ({| w_report := r; w_ticks := ticks1 |}, Err e)
    | (r, Ok schema_metadata) =>
        finish r (S ticks1) (aspects1 ++ [SchemaAspect schema_metadata])%list
    end
  else finish (w_report w) ticks1 aspects1.

Fixpoint emit_loop (cfg : DBTConfig) (platform : string) (w : World)
    (nodes : list DBTNode) : Trace :=
  match nodes with
  | [] => {| yielded := []; raised := None; final_report := w_report w |}
  | node :: rest =>
      match emit_node cfg platform w node with
      | (w1, Err e) =>
          {| yielded := []; raised := Some e; final_report := w_report w1 |}
      | (w1, Ok wu) =>
          let t := emit_loop cfg platform w1 rest in
          {| yielded := wu :: yielded t;
             raised := raised t;
             final_report := final_report t |}
      end
  end.

(** [DBTSource.get_workunits], run to exhaustion on the two parsed
    documents. *)
Definition get_workunits (self : DBTSource)
    (dbt_manifest_json dbt_catalog_json : json) : Trace :=
  let cfg := config self in
  match loadManifestAndCatalog dbt_manifest_json dbt_catalog_json
          (load_schemas cfg) (target_platform cfg) (env cfg)
          (node_type_pattern cfg) with
  | Err e => {| yielded := []; raised := Some e; final_report := report self |}
  | Ok nodes =>
      emit_loop cfg (source_platform self)
        {| w_report := report self; w_ticks := 0 |} nodes
  end.

(** ** Predicates used in the statements *)

(** The test of line 108 on a raw entry. *)
Definition passes_filter (node_type_pattern : json -> result bool)
    (node : json) : result bool :=
  resource_type <- getitem_str node "resource_type" ;;
  node_type_pattern resource_type.

(** [node["depends_on"]["nodes"]]. *)
Definition depends_on_nodes (node : json) : result json :=
  depends_on <- getitem_str node "depends_on" ;;
  getitem_str depends_on "nodes".

(** [catalog[key]["metadata"]["type"]]. *)
Definition catalog_type (catalog : pydict) (key : string) : result json :=
  catalog_node <- dict_getitem catalog (JStr key) ;;
  metadata <- getitem_str catalog_node "metadata" ;;
  getitem_str metadata "type".

Definition is_schema_aspect (a : Aspect) : bool :=
  match a with
  | SchemaAspect _ => true
  | _ => false
  end.

Definition is_lineage_aspect (a : Aspect) : bool :=
  match a with
  | LineageAspect _ => true
  | _ => false
  end.

Definition wu_aspects (wu : MetadataWorkUnit) : list Aspect :=
  aspects (proposedSnapshot (mce wu)).

Definition strip_quotes (s : string) : string := str_replace dquote "" s.

(** The rule for the logical name in the words of the specification:
    the declared identifier field if it is present and schema loading
    is off, otherwise the declared name field. *)
Definition logical_name_field (fields : pydict) (load_catalog : bool)
  : string :=
  if dict_mem "identifier" fields && negb load_catalog
  then "identifier" else "name".

(** What one dependency key resolves to: the identifier of the entry
    the combined manifest has under that key. *)
Definition resolves_to (all_nodes : pydict) (load_catalog : bool)
    (target_platform environment : string)
    (upstream : json) (upstream_urn : string) : Prop :=
  exists k fields database schema name,
    upstream = JStr k
    /\ dict_get k all_nodes = Some (JDict fields)
    /\ dict_get "database" fields = Some database
    /\ dict_get "schema" fields = Some schema
    /\ dict_get (logical_name_field fields load_catalog) fields = Some name
    /\ upstream_urn
       = get_urn_from_dbtNode (format_value database) (format_value schema)
           (format_value name) target_platform environment.

(** The two ways a node gets its materialization and its upstreams. *)
Definition model_or_source (nodes catalog : pydict) (load_catalog : bool)
    (target_platform environment : string)
    (key : string) (node : json) (d : DBTNode) : Prop :=
  exists config,
    getitem_str node "config" = Ok (JDict config)
    /\ match dict_get "materialized" config with
       | Some m =>
           materialization d = m
           /\ exists ups items,
               depends_on_nodes node = Ok ups
               /\ py_iter ups = Ok items
               /\ Forall2 (resolves_to nodes load_catalog target_platform
                             environment)
                    items (upstream_urns d)
               /\ get_upstreams ups nodes load_catalog target_platform
                    environment = Ok (upstream_urns d)
       | None =>
           catalog_type catalog key = Ok (materialization d)
           /\ upstream_urns d = []
       end.

(** The place of a column in its table, when the catalog gives one. *)
Definition column_position (c : DBTColumn) : option Z :=
  match col_index c with
  | JInt z => Some z
  | _ => None
  end.

(** A list of columns that goes by ascending catalog index. *)
Fixpoint in_index_order (cols : list DBTColumn) : bool :=
  match cols with
  | a :: ((b :: _) as rest) =>
      match column_position a, column_position b with
      | Some x, Some y => x <=? y
      | _, _ => false
      end && in_index_order rest
  | _ => true
  end.

(** A raw column as [get_columns] reads it. *)
Definition column_of (raw_column : json) (c : DBTColumn) : Prop :=
  getitem_str raw_column "comment" = Ok (col_comment c)
  /\ getitem_str raw_column "type" = Ok (col_data_type c)
  /\ getitem_str raw_column "index" = Ok (col_index c)
  /\ getitem_str raw_column "name" = Ok (col_name c).

(** A column as [get_schema_metadata] writes it. *)
Definition field_of (c : DBTColumn) (f : SchemaField) : Prop :=
  fieldPath f = col_name c
  /\ nativeDataType f = col_data_type c
  /\ description f = col_comment c
  /\ nullable f = false
  /\ recursive f = false.

(** The join errors: the entry under [key], which has the [config]
    object the extraction looks into, needs the entry [missing] of the
    combined manifest (for a dependency) or of the combined catalog (for
    its materialization or its columns), and there is none. *)
Inductive join_error (nodes catalog : pydict) (load_catalog : bool)
    (key : string) (node : json) : string -> Prop :=
| missing_dependency config ups items k :
    getitem_str node "config" = Ok (JDict config) ->
    dict_mem "materialized" config = true ->
    depends_on_nodes node = Ok ups ->
    py_iter ups = Ok items ->
    In (JStr k) items ->
    dict_get k nodes = None ->
    join_error nodes catalog load_catalog key node k
| missing_catalog_type config :
    getitem_str node "config" = Ok (JDict config) ->
    dict_get "materialized" config = None ->
    dict_get key catalog = None ->
    join_error nodes catalog load_catalog key node key
| missing_catalog_columns config m :
    getitem_str node "config" = Ok (JDict config) ->
    dict_get "materialized" config = Some m ->
    is_ephemeral m = false ->
    load_catalog = true ->
    dict_get key catalog = None ->
    join_error nodes catalog load_catalog key node key.

(** The fields every entry is read for before its config is looked at. *)
Definition has_entry_fields (node : json) (load_catalog : bool) : Prop :=
  exists fields database schema path name,
    node = JDict fields
    /\ dict_get "database" fields = Some database
    /\ dict_get "schema" fields = Some schema
    /\ dict_get "original_file_path" fields = Some path
    /\ dict_get (logical_name_field fields load_catalog) fields = Some name.

(** A join error that nothing else in the entry gets ahead of: the
    entry has its own fields, and what is resolved before the missing
    entry is looked up resolves. *)
Inductive first_join_error (nodes catalog : pydict) (load_catalog : bool)
    (target_platform environment : string)
    (key : string) (node : json) : string -> Prop :=
| first_missing_dependency config ups before k after urns :
    has_entry_fields node load_catalog ->
    getitem_str node "config" = Ok (JDict config) ->
    dict_mem "materialized" config = true ->
    depends_on_nodes node = Ok ups ->
    py_iter ups = Ok (before ++ JStr k :: after)%list ->
    get_upstreams (JList before) nodes load_catalog target_platform
      environment = Ok urns ->
    dict_get k nodes = None ->
    first_join_error nodes catalog load_catalog target_platform environment
      key node k
| first_missing_catalog_type config :
    has_entry_fields node load_catalog ->
    getitem_str node "config" = Ok (JDict config) ->
    dict_get "materialized" config = None ->
    dict_get key catalog = None ->
    first_join_error nodes catalog load_catalog target_platform environment
      key node key
| first_missing_catalog_columns config m ups urns :
    has_entry_fields node load_catalog ->
    getitem_str node "config" = Ok (JDict config) ->
    dict_get "materialized" config = Some m ->
    depends_on_nodes node = Ok ups ->
    get_upstreams ups nodes load_catalog target_platform environment
    = Ok urns ->
    is_ephemeral m = false ->
    load_catalog = true ->
    dict_get key catalog = None ->
    first_join_error nodes catalog load_catalog target_platform environment
      key node key.

(** The logical name of an extracted node and of its upstreams. *)
Definition named_by_rule (nodes : pydict) (load_catalog : bool)
    (target_platform environment : string) (d : DBTNode) : Prop :=
  exists fields config,
    In (dbt_name d, JDict fields) nodes
    /\ dict_get (logical_name_field fields load_catalog) fields
       = Some (name d)
    /\ (dict_mem "identifier" fields = true /\ load_catalog = false ->
        logical_name_field fields load_catalog = "identifier")
    /\ (dict_mem "identifier" fields = false \/ load_catalog = true ->
        logical_name_field fields load_catalog = "name")
    /\ datahub_urn d
       = get_urn_from_dbtNode (format_value (database d))
           (format_value (schema d)) (format_value (name d))
           target_platform environment
    /\ dict_get "config" fields = Some (JDict config)
    /\ (dict_mem "materialized" config = true ->
        exists ups items,
          depends_on_nodes (JDict fields) = Ok ups
          /\ py_iter ups = Ok items
          /\ Forall2 (resolves_to nodes load_catalog target_platform
                        environment)
               items (upstream_urns d)).

(** The columns read from a catalog entry, key by key. *)
Definition in_document_order (catalog_node : json) (cols : list DBTColumn)
  : Prop :=
  exists raw_columns keys,
    getitem_str catalog_node "columns" = Ok raw_columns
    /\ py_iter raw_columns = Ok keys
    /\ (forall d, raw_columns = JDict d ->
        keys = map (fun kv => JStr (fst kv)) d)
    /\ Forall2 (fun key c =>
                  exists raw_column,
                    getitem raw_columns key = Ok raw_column
                    /\ column_of raw_column c)
         keys cols.

(** The columns of a node: those of its catalog entry, key by key, or
    none. *)
Definition columns_rule (catalog : pydict) (load_catalog : bool)
    (d : DBTNode) : Prop :=
  if negb (is_ephemeral (materialization d)) && load_catalog
  then exists catalog_node,
         dict_get (dbt_name d) catalog = Some catalog_node
         /\ in_document_order catalog_node (columns d)
         /\ get_columns catalog_node = Ok (columns d)
  else columns d = [].

(** A yielded record with the lineage of its node in second place. *)
Definition carries_lineage (node : DBTNode) (wu : MetadataWorkUnit) : Prop :=
  exists p lineage rest,
    wu_aspects wu = PropertiesAspect p :: LineageAspect lineage :: rest
    /\ map dataset (upstreams lineage) = upstream_urns node
    /\ existsb is_lineage_aspect rest = false.

(** The entries written out in the dict display of [_field_type_mapping],
    before the two vendor tables are merged in. *)
Definition sql_field_types : list (string * option TypeClass) :=
  [("boolean", Some BooleanTypeClass);
   ("date", Some DateTypeClass);
   ("time", Some TimeTypeClass);
   ("numeric", Some NumberTypeClass);
   ("text", Some StringTypeClass);
   ("timestamp with time zone", Some DateTypeClass);
   ("timestamp without time zone", Some DateTypeClass);
   ("integer", Some NumberTypeClass);
   ("float8", Some NumberTypeClass)].

(** The class the merged table holds for a name; an entry of [None] reads
    as no entry (line 279). *)
Definition table_class (column_type : string) : option TypeClass :=
  match dict_get column_type _field_type_mapping with
  | Some (Some c) => Some c
  | _ => None
  end.

(** An entry of the manifest the node-type filter lets through. *)
Definition kept (node_type_pattern : json -> result bool)
    (entry : string * json) : bool :=
  match passes_filter node_type_pattern (snd entry) with
  | Ok true => true
  | _ => false
  end.

(** A column type that neither the merged table nor the resolver maps. *)
Definition is_unmapped (column_type : json) : bool :=
  match dict_get_method _field_type_mapping column_type,
        resolve_postgres_modified_type column_type with
  | Ok (Some (Some _)), _ => false
  | Ok _, Ok None => true
  | _, _ => false
  end.

(** A column type for which the type mapper has no way to raise: a
    string whose class in the merged table, or else the class the resolver
    returns for it, if any, can be called without arguments. *)
Definition maps_without_raising (column_type : json) : Prop :=
  exists s,
    column_type = JStr s
    /\ match table_class s with
       | Some c => instantiate c = None
       | None =>
           exists o,
             resolve_postgres_modified_type (JStr s) = Ok o
             /\ forall c, o = Some c -> instantiate c = None
       end.

(** The text of the warning for a type that is not mapped. *)
Definition unmapped_warning (dataset_name : string) (column_type : json)
  : string * string :=
  (dataset_name,
   "unable to map type " ++ format_value column_type ++ " to metadata schema").

(** The first of the fields every entry that passes the filter is read
    for, in the order of the reads, that the entry does not have. *)
Definition first_missing_field (fields : pydict) (load_catalog : bool)
  : option string :=
  find (fun f => negb (dict_mem f fields))
       ["database"; "schema"; "original_file_path";
        logical_name_field fields load_catalog; "config"].

(** * Properties *)

(** ** The containers on small inputs *)

Example dict_merge_order :
  dict_merge [("a", JInt 1); ("b", JInt 2)] [("b", JInt 3); ("c", JInt 4)]
  = [("a", JInt 1); ("b", JInt 3); ("c", JInt 4)].
Proof. reflexivity. Qed.

Example getitem_missing_key :
  getitem_str (JDict [("a", JInt 1)]) "b" = Err (KeyError (JStr "b")).
Proof. reflexivity. Qed.

Example getitem_last_of_list :
  getitem (JList [JInt 1; JInt 2; JInt 3]) (JInt (-1)) = Ok (JInt 3).
Proof. reflexivity. Qed.

Example getitem_list_by_name :
  getitem_str (JList [JInt 1]) "a" = Err TypeError.
Proof. reflexivity. Qed.

Example py_iter_dict_keys :
  py_iter (JDict [("b", JInt 2); ("a", JInt 1)]) = Ok [JStr "b"; JStr "a"].
Proof. reflexivity. Qed.

Example py_int_truncates : py_int (Qmake (-7) 2) = -3 /\ py_int (Qmake 7 2) = 3.
Proof. split; reflexivity. Qed.

(** ** The error monad *)

Lemma bind_Ok {A B} (c : result A) (f : A -> result B) (b : B) :
  bind c f = Ok b -> exists a, c = Ok a /\ f a = Ok b.
Proof.
  destruct c as [a|e]; simpl; intros H; [eauto | discriminate].
Qed.




Lemma mapM_Ok_Forall2 {A B} (f : A -> result B) xs ys :
  mapM f xs = Ok ys -> Forall2 (fun x y => f x = Ok y) xs ys.
Proof.
  revert ys. induction xs as [|x xs IH]; simpl; intros ys H.
  - injection H as <-. constructor.
  - apply bind_Ok in H as (y & Hy & H).
    apply bind_Ok in H as (ys' & Hys & H).
    injection H as <-. constructor; auto.
Qed.

(** ** Strings *)

Lemma str_app_assoc (s t u : string) : (s ++ t) ++ u = s ++ (t ++ u).
Proof.
  induction s as [|c s IH]; simpl; [reflexivity|]. now rewrite IH.
Qed.

Lemma str_replace_app old new s t :
  str_replace old new (s ++ t)
  = str_replace old new s ++ str_replace old new t.
Proof.
  induction s as [|c s IH]; simpl; [reflexivity|].
  destruct (Ascii.eqb c old); rewrite IH; simpl; [|reflexivity].
  now rewrite str_app_assoc.
Qed.

Lemma str_contains_char_app c s t :
  str_contains_char c (s ++ t)
  = str_contains_char c s || str_contains_char c t.
Proof.
  induction s as [|d s IH]; simpl; [reflexivity|].
  now rewrite IH, orb_assoc.
Qed.

Lemma strip_no_quote s : has_quote (strip_quotes s) = false.
Proof.
  unfold has_quote, strip_quotes.
  induction s as [|c s IH]; simpl; [reflexivity|].
  destruct (Ascii.eqb c dquote) eqn:E; simpl; [exact IH|].
  now rewrite E, IH.
Qed.


(** C1 (as amended).  The resolver is a function of its five arguments;
    its result is the fixed frame around the platform, the triple
    [database.schema.name] without its double quotes (which is the three
    components, each without its double quotes, joined by dots) and the
    environment.  The stripped triple holds no double quote, and the
    result holds one exactly when the platform or the environment does:
    those two are passed through as they are. *)
Theorem get_urn_from_dbtNode_quotes (database schema name target_platform env : string) :
  get_urn_from_dbtNode database schema name target_platform env
  = "urn:li:dataset:(urn:li:dataPlatform:" ++ target_platform ++ ","
      ++ strip_quotes (database ++ "." ++ schema ++ "." ++ name)
      ++ "," ++ env ++ ")"
  /\ strip_quotes (database ++ "." ++ schema ++ "." ++ name)
     = strip_quotes database ++ "." ++ strip_quotes schema ++ "."
         ++ strip_quotes name
  /\ has_quote (strip_quotes (database ++ "." ++ schema ++ "." ++ name)) = false
  /\ has_quote (get_urn_from_dbtNode database schema name target_platform env)
     = has_quote target_platform || has_quote env.
Proof.
  split; [reflexivity|]. split; [|split].
  - unfold strip_quotes. now rewrite !str_replace_app.
  - apply strip_no_quote.
  - unfold get_urn_from_dbtNode. fold (strip_quotes (database ++ "." ++ schema ++ "." ++ name)).
    unfold has_quote at 1.
    rewrite !str_contains_char_app.
    fold (has_quote (strip_quotes (database ++ "." ++ schema ++ "." ++ name))).
    rewrite strip_no_quote.
    fold (has_quote target_platform). fold (has_quote env).
    cbn. now rewrite !orb_false_r.
Qed.

(** ** Dictionaries *)

Lemma dict_get_set_same {A} k (v : A) d : dict_get k (dict_set k v d) = Some v.
Proof.
  induction d as [|[k' v'] d IH]; simpl.
  - now rewrite String.eqb_refl.
  - destruct (String.eqb k' k) eqn:E; simpl; rewrite E; auto.
Qed.

Lemma dict_get_set_other {A} k k' (v : A) d :
  k <> k' -> dict_get k (dict_set k' v d) = dict_get k d.
Proof.
  intros Hne. induction d as [|[k0 v0] d IH]; simpl.
  - destruct (String.eqb k' k) eqn:E; [|reflexivity].
    apply String.eqb_eq in E. congruence.
  - destruct (String.eqb k0 k') eqn:E; simpl.
    + apply String.eqb_eq in E. subst k0.
      destruct (String.eqb k' k) eqn:E'; [|reflexivity].
      apply String.eqb_eq in E'. congruence.
    + now rewrite IH.
Qed.

Lemma dict_get_None_keys {A} k (d : list (string * A)) :
  dict_get k d = None <-> ~ In k (map fst d).
Proof.
  induction d as [|[k' v'] d IH]; simpl; [tauto|].
  destruct (String.eqb k' k) eqn:E.
  - apply String.eqb_eq in E. split; [discriminate | tauto].
  - apply String.eqb_neq in E. tauto.
Qed.

Lemma dict_set_keys {A} k (v : A) d :
  map fst (dict_set k v d)
  = if dict_mem k d then map fst d else (map fst d ++ [k])%list.
Proof.
  unfold dict_mem.
  induction d as [|[k' v'] d IH]; simpl; [reflexivity|].
  destruct (String.eqb k' k) eqn:E; simpl; [reflexivity|].
  rewrite IH. now destruct (dict_get k d).
Qed.

Lemma dict_merge_get {A} (a b : list (string * A)) k :
  NoDup (map fst b) ->
  dict_get k (dict_merge a b)
  = match dict_get k b with
    | Some v => Some v
    | None => dict_get k a
    end.
Proof.
  unfold dict_merge. revert a.
  induction b as [|[k1 v1] b IH]; simpl; intros a Hnd; [reflexivity|].
  inversion Hnd as [|? ? Hnotin Hnd']; subst.
  rewrite (IH _ Hnd').
  destruct (String.eqb k1 k) eqn:E.
  - apply String.eqb_eq in E. subst k1.
    apply dict_get_None_keys in Hnotin. rewrite Hnotin.
    apply dict_get_set_same.
  - apply String.eqb_neq in E.
    destruct (dict_get k b); [reflexivity|].
    apply dict_get_set_other. congruence.
Qed.

Lemma dict_merge_keys_NoDup {A} (a b : list (string * A)) :
  NoDup (map fst a) -> NoDup (map fst (dict_merge a b)).
Proof.
  unfold dict_merge. revert a.
  induction b as [|[k1 v1] b IH]; simpl; intros a Hnd; [exact Hnd|].
  apply IH. rewrite dict_set_keys. unfold dict_mem.
  destruct (dict_get k1 a) eqn:E; [exact Hnd|].
  apply dict_get_None_keys in E.
  apply NoDup_app; [exact Hnd | repeat constructor; simpl; tauto |].
  intros x Hx [<-|[]]. tauto.
Qed.

(** C10.  The display [{**nodes, **sources}] never fails on two
    mappings and rejects nothing: a key of [sources] reads as [sources]
    has it, whether or not [nodes] has it too, every other key as
    [nodes] has it, and the keys of the result stay distinct.  The
    loader hands the two maps combined in this way, manifest and
    catalog alike, to the extraction with no check between. *)
Theorem merge_later_operand_wins
    (manifest_nodes manifest_sources catalog_nodes catalog_sources : pydict)
    (dbt_manifest_json dbt_catalog_json : json)
    (load_catalog : bool) (target_platform environment : string)
    (node_type_pattern : json -> result bool) (k : string) :
  NoDup (map fst manifest_nodes) -> NoDup (map fst manifest_sources) ->
  NoDup (map fst catalog_nodes) -> NoDup (map fst catalog_sources) ->
  getitem_str dbt_manifest_json "nodes" = Ok (JDict manifest_nodes) ->
  getitem_str dbt_manifest_json "sources" = Ok (JDict manifest_sources) ->
  getitem_str dbt_catalog_json "nodes" = Ok (JDict catalog_nodes) ->
  getitem_str dbt_catalog_json "sources" = Ok (JDict catalog_sources) ->
  py_merge (JDict manifest_nodes) (JDict manifest_sources)
  = Ok (dict_merge manifest_nodes manifest_sources)
  /\ dict_get k (dict_merge manifest_nodes manifest_sources)
     = match dict_get k manifest_sources with
       | Some v => Some v
       | None => dict_get k manifest_nodes
       end
  /\ dict_get k (dict_merge catalog_nodes catalog_sources)
     = match dict_get k catalog_sources with
       | Some v => Some v
       | None => dict_get k catalog_nodes
       end
  /\ NoDup (map fst (dict_merge manifest_nodes manifest_sources))
  /\ loadManifestAndCatalog dbt_manifest_json dbt_catalog_json load_catalog
       target_platform environment node_type_pattern
     = extract_dbt_entities
         (dict_merge manifest_nodes manifest_sources)
         (dict_merge catalog_nodes catalog_sources)
         load_catalog target_platform environment node_type_pattern.
Proof.
  intros Hmn Hms Hcn Hcs H1 H2 H3 H4.
  split; [reflexivity|].
  split; [now apply dict_merge_get|].
  split; [now apply dict_merge_get|].
  split; [now apply dict_merge_keys_NoDup|].
  unfold loadManifestAndCatalog. rewrite H1, H2, H3, H4. reflexivity.
Qed.

(** ** Timestamps *)

Lemma py_int_nonneg (x : Q) :
  (0 <= x)%Q -> (inject_Z (py_int x) <= x)%Q /\ (x < inject_Z (py_int x + 1))%Q.
Proof.
  destruct x as [n d]. unfold py_int, Qle, Qlt, inject_Z. simpl.
  intros Hn. rewrite Z.mul_1_r in Hn.
  rewrite Z.quot_div_nonneg by lia.
  rewrite !Z.mul_1_r.
  pose proof (Z.mul_div_le n (Zpos d) ltac:(lia)).
  pose proof (Z.mul_succ_div_gt n (Zpos d) ltac:(lia)).
  split; lia.
Qed.

(** C9.  The time of every entry of a lineage record, and both audit
    stamps of a schema record, are the reading the clock gave in that
    call, truncated to whole seconds, times 1000: one value for the
    whole call and a multiple of 1000. *)
Theorem timestamps_whole_seconds (now : Q) (upstream_urns : list string)
    (report : SourceReport) (node : DBTNode) (platform : string) :
  Forall (fun u => time (auditStamp u) = py_int now * 1000)
         (upstreams (get_upstream_lineage now upstream_urns))
  /\ (forall report' sm,
        get_schema_metadata now report node platform = (report', Ok sm) ->
        time (created sm) = py_int now * 1000
        /\ time (lastModified sm) = py_int now * 1000)
  /\ (py_int now * 1000) mod 1000 = 0
  /\ ((0 <= now)%Q ->
      (inject_Z (py_int now) <= now)%Q /\ (now < inject_Z (py_int now + 1))%Q).
Proof.
  split; [|split; [|split]].
  - unfold get_upstream_lineage. simpl.
    apply Forall_forall. intros u Hu. apply in_map_iff in Hu as (dep & <- & _).
    reflexivity.
  - intros report' sm H. unfold get_schema_metadata in H.
    destruct (canonical_schema report (dbt_name node) (columns node)) as [r [fs|e]];
      [|discriminate].
    injection H as _ <-. split; reflexivity.
  - apply Z.mod_mul. lia.
  - apply py_int_nonneg.
Qed.

(** ** The type mapper *)


(** ** Subscripts *)

Lemma getitem_str_dict d k :
  getitem_str (JDict d) k
  = match dict_get k d with
    | Some v => Ok v
    | None => Err (KeyError (JStr k))
    end.
Proof. reflexivity. Qed.

Lemma getitem_str_Ok obj k v :
  getitem_str obj k = Ok v -> exists d, obj = JDict d /\ dict_get k d = Some v.
Proof.
  destruct obj as [| | | | |l|d]; try discriminate.
  rewrite getitem_str_dict. intros H. exists d. split; [reflexivity|].
  destruct (dict_get k d); [now injection H as -> | discriminate].
Qed.

Lemma dict_getitem_str_Ok d k v :
  dict_getitem d (JStr k) = Ok v -> dict_get k d = Some v.
Proof.
  simpl. destruct (dict_get k d); [now intros [= ->] | discriminate].
Qed.

Lemma existsb_keys {A} k (d : list (string * A)) :
  existsb (String.eqb k) (map fst d) = dict_mem k d.
Proof.
  unfold dict_mem.
  induction d as [|[k' v] d IH]; simpl; [reflexivity|].
  rewrite String.eqb_sym.
  destruct (String.eqb k' k); simpl; [reflexivity | exact IH].
Qed.

Lemma dict_mem_get {A} k (d : list (string * A)) :
  dict_mem k d = true <-> exists v, dict_get k d = Some v.
Proof.
  unfold dict_mem. destruct (dict_get k d); split; eauto; try discriminate.
  intros [v H]. discriminate.
Qed.

(** ** One entry of the manifest *)

Lemma extract_entity_skipped nodes catalog load_catalog target_platform
    environment node_type_pattern key node :
  passes_filter node_type_pattern node = Ok false ->
  extract_entity nodes catalog load_catalog target_platform environment
    node_type_pattern key node = Ok None.
Proof.
  unfold passes_filter, extract_entity. intros H.
  apply bind_Ok in H as (rt & Hrt & Hok).
  rewrite Hrt. simpl. rewrite Hok. reflexivity.
Qed.

Lemma extract_entity_Some nodes catalog load_catalog target_platform
    environment node_type_pattern key node d :
  extract_entity nodes catalog load_catalog target_platform environment
    node_type_pattern key node = Ok (Some d) ->
  exists fields config,
    node = JDict fields
    /\ passes_filter node_type_pattern node = Ok true
    /\ dbt_name d = key
    /\ dict_get "resource_type" fields = Some (node_type d)
    /\ dict_get "database" fields = Some (database d)
    /\ dict_get "schema" fields = Some (schema d)
    /\ dict_get "original_file_path" fields = Some (dbt_file_path d)
    /\ dict_get (logical_name_field fields load_catalog) fields = Some (name d)
    /\ dict_get "config" fields = Some (JDict config)
    /\ match dict_get "materialized" config with
       | Some m =>
           materialization d = m
           /\ exists ups,
               depends_on_nodes node = Ok ups
               /\ get_upstreams ups nodes load_catalog target_platform
                    environment = Ok (upstream_urns d)
       | None =>
           catalog_type catalog key = Ok (materialization d)
           /\ upstream_urns d = []
       end
    /\ (if negb (is_ephemeral (materialization d)) && load_catalog
        then exists catalog_node,
               dict_get key catalog = Some catalog_node
               /\ get_columns catalog_node = Ok (columns d)
        else columns d = [])
    /\ datahub_urn d
       = get_urn_from_dbtNode (format_value (database d))
           (format_value (schema d)) (format_value (name d))
           target_platform environment.
Proof.
  unfold extract_entity. intros H.
  apply bind_Ok in H as (rt & Hrt & H).
  apply bind_Ok in H as (ok & Hok & H).
  destruct ok; cbn [negb] in H; [|discriminate].
  apply bind_Ok in H as (db & Hdb & H).
  apply bind_Ok in H as (sc & Hsc & H).
  apply bind_Ok in H as (fp & Hfp & H).
  apply bind_Ok in H as (nt & Hnt & H).
  apply bind_Ok in H as (hasid & Hid & H).
  apply bind_Ok in H as (nm & Hnm & H).
  apply bind_Ok in H as (cfg & Hcfg & H).
  apply bind_Ok in H as (keys & Hkeys & H).
  apply bind_Ok in H as ([m urns] & Hmu & H).
  apply bind_Ok in H as (cols & Hcols & H).
  injection H as <-. cbn [fst snd] in Hmu, Hcols |- *.
  destruct (getitem_str_Ok _ _ _ Hrt) as (fields & Hnode & Hrt'). subst node.
  destruct cfg as [| | | | | |config]; try discriminate.
  injection Hkeys as <-. injection Hid as <-.
  cbn [dbt_name database schema dbt_file_path node_type materialization name
       columns upstream_urns datahub_urn].
  apply getitem_str_Ok in Hdb as (? & [= <-] & Hdb).
  apply getitem_str_Ok in Hsc as (? & [= <-] & Hsc).
  apply getitem_str_Ok in Hfp as (? & [= <-] & Hfp).
  apply getitem_str_Ok in Hnt as (? & [= <-] & Hnt).
  pose proof (getitem_str_Ok _ _ _ Hcfg) as (? & [= <-] & Hcfg').
  exists fields, config.
  split; [reflexivity|].
  split; [unfold passes_filter; rewrite Hrt; exact Hok|].
  split; [reflexivity|].
  split; [exact Hnt|]. split; [exact Hdb|]. split; [exact Hsc|].
  split; [exact Hfp|].
  split.
  { unfold logical_name_field.
    replace (Bool.eqb load_catalog false) with (negb load_catalog) in Hnm
      by now destruct load_catalog.
    destruct (dict_mem "identifier" fields && negb load_catalog);
      apply getitem_str_Ok in Hnm as (? & [= <-] & Hnm); exact Hnm. }
  split; [exact Hcfg'|].
  split.
  { rewrite existsb_keys in Hmu. unfold dict_mem in Hmu.
    rewrite Hcfg in Hmu. simpl in Hmu.
    destruct (dict_get "materialized" config) as [m0|] eqn:Hm0.
    - cbn [bind] in Hmu.
      apply bind_Ok in Hmu as (dep & Hdep & Hmu).
      apply bind_Ok in Hmu as (ups & Hups & Hmu).
      apply bind_Ok in Hmu as (us & Hus & Hmu).
      injection Hmu as <- <-. split; [reflexivity|].
      exists ups. split; [|exact Hus].
      unfold depends_on_nodes. rewrite getitem_str_dict, Hdep. exact Hups.
    - apply bind_Ok in Hmu as (cn & Hcn & Hmu).
      apply bind_Ok in Hmu as (md & Hmd & Hmu).
      apply bind_Ok in Hmu as (ty & Hty & Hmu).
      injection Hmu as <- <-. split; [|reflexivity].
      unfold catalog_type. cbn [dict_getitem]. rewrite Hcn. cbn [bind].
      rewrite Hmd. exact Hty. }
  split; [|reflexivity].
  destruct (negb (is_ephemeral m) && load_catalog).
  - apply bind_Ok in Hcols as (cn & Hcn & Hcols).
    exists cn. split; [|exact Hcols]. now apply dict_getitem_str_Ok.
  - now injection Hcols as <-.
Qed.

Lemma extract_entity_passed nodes catalog load_catalog target_platform
    environment node_type_pattern key node o :
  passes_filter node_type_pattern node = Ok true ->
  extract_entity nodes catalog load_catalog target_platform environment
    node_type_pattern key node = Ok o ->
  exists d, o = Some d.
Proof.
  unfold passes_filter, extract_entity. intros Hp H.
  apply bind_Ok in Hp as (rt & Hrt & Hok).
  rewrite Hrt in H. simpl in H. rewrite Hok in H. simpl in H.
  repeat (apply bind_Ok in H as (? & _ & H)).
  injection H as <-. eauto.
Qed.

(** ** The loop over the manifest *)

Lemma extract_loop_entries nodes catalog load_catalog target_platform
    environment node_type_pattern items ents :
  extract_loop nodes catalog load_catalog target_platform environment
    node_type_pattern items = Ok ents ->
  (forall key node, In (key, node) items ->
     exists o,
       extract_entity nodes catalog load_catalog target_platform environment
         node_type_pattern key node = Ok o
       /\ forall d, o = Some d -> In d ents)
  /\ (forall d, In d ents ->
        exists key node,
          In (key, node) items
          /\ extract_entity nodes catalog load_catalog target_platform
               environment node_type_pattern key node = Ok (Some d)).
Proof.
  revert ents. induction items as [|[k n] items IH]; simpl; intros ents H.
  - injection H as <-. split; [intros key node [] | intros d []].
  - apply bind_Ok in H as (o & Ho & H).
    apply bind_Ok in H as (es & Hes & H).
    injection H as <-. destruct (IH _ Hes) as [IH1 IH2]. split.
    + intros key node [[= <- <-]|Hin].
      * exists o. split; [exact Ho|]. intros d ->. now left.
      * destruct (IH1 _ _ Hin) as (o' & Ho' & Hd).
        exists o'. split; [exact Ho'|]. intros d Hd'.
        specialize (Hd _ Hd'). destruct o; [now right | exact Hd].
    + intros d Hd.
      assert (Hcase : o = Some d \/ In d es).
      { destruct o as [d0|]; [destruct Hd as [<-|Hd]|]; auto. }
      destruct Hcase as [->|Hd'].
      * exists k, n. split; [now left | exact Ho].
      * destruct (IH2 _ Hd') as (key & node & Hin & Hx).
        exists key, node. split; [now right | exact Hx].
Qed.

Lemma extract_loop_fails nodes catalog load_catalog target_platform
    environment node_type_pattern items key node e :
  In (key, node) items ->
  extract_entity nodes catalog load_catalog target_platform environment
    node_type_pattern key node = Err e ->
  exists e',
    extract_loop nodes catalog load_catalog target_platform environment
      node_type_pattern items = Err e'.
Proof.
  induction items as [|[k n] items IH]; simpl; [intros []|].
  intros [[= <- <-]|Hin] Hx.
  - rewrite Hx. simpl. eauto.
  - destruct (extract_entity _ _ _ _ _ _ k n); simpl; [|eauto].
    destruct (IH Hin Hx) as [e' ->]. simpl. eauto.
Qed.

Lemma extract_dbt_entities_Ok nodes catalog load_catalog target_platform
    environment node_type_pattern ents :
  extract_dbt_entities nodes catalog load_catalog target_platform
    environment node_type_pattern = Ok ents ->
  (forall key node,
     In (key, node) nodes -> passes_filter node_type_pattern node = Ok true ->
     exists d,
       In d ents
       /\ extract_entity nodes catalog load_catalog target_platform
            environment node_type_pattern key node = Ok (Some d))
  /\ (forall d, In d ents ->
        exists node,
          In (dbt_name d, node) nodes
          /\ extract_entity nodes catalog load_catalog target_platform
               environment node_type_pattern (dbt_name d) node = Ok (Some d)).
Proof.
  unfold extract_dbt_entities. intros H.
  apply extract_loop_entries in H as [H1 H2]. split.
  - intros key node Hin Hp.
    destruct (H1 _ _ Hin) as (o & Ho & Hd).
    destruct (extract_entity_passed _ _ _ _ _ _ _ _ _ Hp Ho) as [d ->].
    exists d. auto.
  - intros d Hd. destruct (H2 _ Hd) as (key & node & Hin & Hx).
    pose proof (extract_entity_Some _ _ _ _ _ _ _ _ _ Hx)
      as (fields & config & _ & _ & Hk & _).
    subst key. eauto.
Qed.

Lemma get_upstreams_Ok upstreams all_nodes load_catalog target_platform
    environment urns :
  get_upstreams upstreams all_nodes load_catalog target_platform environment
  = Ok urns ->
  exists items,
    py_iter upstreams = Ok items
    /\ Forall2 (resolves_to all_nodes load_catalog target_platform environment)
         items urns.
Proof.
  unfold get_upstreams. intros H.
  apply bind_Ok in H as (items & Hit & H).
  exists items. split; [exact Hit|].
  apply mapM_Ok_Forall2 in H.
  eapply Forall2_impl; [|exact H].
  clear. intros upstream urn H. cbv beta in H.
  apply bind_Ok in H as (db & Hdb & H).
  apply bind_Ok in H as (sc & Hsc & H).
  apply bind_Ok in H as (hasid & Hid & H).
  apply bind_Ok in H as (nm & Hnm & H).
  injection H as <-.
  apply bind_Ok in Hdb as (entry & Hentry & Hdb).
  rewrite Hentry in Hsc, Hid, Hnm. cbn [bind] in Hsc, Hid, Hnm.
  destruct (getitem_str_Ok _ _ _ Hdb) as (fields & -> & Hdb').
  apply getitem_str_Ok in Hsc as (? & [= <-] & Hsc).
  injection Hid as <-.
  destruct upstream as [| | | |k| |]; try discriminate.
  apply dict_getitem_str_Ok in Hentry.
  exists k, fields, db, sc, nm. repeat split; try assumption.
  unfold logical_name_field.
  destruct (dict_mem "identifier" fields && negb load_catalog);
    cbn [bind] in Hnm;
    apply getitem_str_Ok in Hnm as (? & [= <-] & Hnm); exact Hnm.
Qed.

Lemma extract_entity_model_or_source nodes catalog load_catalog
    target_platform environment node_type_pattern key node d :
  extract_entity nodes catalog load_catalog target_platform environment
    node_type_pattern key node = Ok (Some d) ->
  model_or_source nodes catalog load_catalog target_platform environment
    key node d.
Proof.
  intros H.
  apply extract_entity_Some in H
    as (fields & config & -> & _ & _ & _ & _ & _ & _ & _ & Hcfg & Hm & _).
  exists config. split; [now rewrite getitem_str_dict, Hcfg|].
  destruct (dict_get "materialized" config); [|exact Hm].
  destruct Hm as (Hmat & ups & Hups & Hus). split; [exact Hmat|].
  destruct (get_upstreams_Ok _ _ _ _ _ _ Hus) as (items & Hit & HF).
  exists ups, items. auto.
Qed.

(** C2.  When the extraction returns, every entry of the manifest that
    passes the node-type filter has its node in the result, and every
    node of the result comes from such an entry.  For each of them: if
    the entry's config holds [materialized], the node's materialization
    is that value and its upstream identifiers are those resolved from
    the entry's [depends_on.nodes], one for each key listed and in that
    order, each the identifier of the entry the manifest has under the
    key; if not, the materialization is the metadata type of the catalog
    entry under the same key and the list of upstream identifiers is
    empty. *)
Theorem materialization_and_upstreams (nodes catalog : pydict)
    (load_catalog : bool) (target_platform environment : string)
    (node_type_pattern : json -> result bool) (ents : list DBTNode) :
  extract_dbt_entities nodes catalog load_catalog target_platform
    environment node_type_pattern = Ok ents ->
  (forall key node,
     In (key, node) nodes -> passes_filter node_type_pattern node = Ok true ->
     exists d,
       In d ents /\ dbt_name d = key
       /\ model_or_source nodes catalog load_catalog target_platform
            environment key node d)
  /\ (forall d, In d ents ->
        exists node,
          In (dbt_name d, node) nodes
          /\ passes_filter node_type_pattern node = Ok true
          /\ model_or_source nodes catalog load_catalog target_platform
               environment (dbt_name d) node d).
Proof.
  intros H. apply extract_dbt_entities_Ok in H as [H1 H2]. split.
  - intros key node Hin Hp.
    destruct (H1 _ _ Hin Hp) as (d & Hd & Hx).
    exists d. split; [exact Hd|]. split.
    + now apply extract_entity_Some in Hx as (? & ? & _ & _ & Hk & _).
    + now apply extract_entity_model_or_source in Hx.
  - intros d Hd. destruct (H2 _ Hd) as (node & Hin & Hx).
    exists node. split; [exact Hin|]. split.
    + now apply extract_entity_Some in Hx as (? & ? & _ & Hp & _).
    + now apply extract_entity_model_or_source in Hx.
Qed.

(** ** Upstream resolution *)


(** C8.  For every node extracted, the [name] of the node, which is the
    name its identifier is built from, is the entry's [identifier] field
    when the entry has one and schema loading is off, and the entry's
    [name] field in every other case; and every upstream identifier of
    the node is built, under the same rule, from the manifest entry its
    dependency key names. *)
Theorem logical_name_selection (nodes catalog : pydict)
    (load_catalog : bool) (target_platform environment : string)
    (node_type_pattern : json -> result bool) (ents : list DBTNode) :
  extract_dbt_entities nodes catalog load_catalog target_platform
    environment node_type_pattern = Ok ents ->
  forall d, In d ents ->
    named_by_rule nodes load_catalog target_platform environment d.
Proof.
  intros H d Hd. apply extract_dbt_entities_Ok in H as [_ H2].
  destruct (H2 _ Hd) as (node & Hin & Hx).
  apply extract_entity_Some in Hx
    as (fields & config & -> & _ & _ & _ & _ & _ & _ & Hnm & Hcfg & Hm & _ & Hurn).
  exists fields, config. split; [exact Hin|]. split; [exact Hnm|].
  split; [|split; [|split; [exact Hurn|split; [exact Hcfg|]]]].
  - intros [H1 ->]. unfold logical_name_field. now rewrite H1.
  - unfold logical_name_field. intros [-> | ->]; [reflexivity|].
    now rewrite andb_false_r.
  - intros Hmem. apply dict_mem_get in Hmem as [m Hmem].
    rewrite Hmem in Hm. destruct Hm as (_ & ups & Hups & Hus).
    apply get_upstreams_Ok in Hus as (items & Hit & HF).
    exists ups, items. auto.
Qed.

Lemma get_columns_Ok catalog_node cols :
  get_columns catalog_node = Ok cols ->
  exists raw_columns keys,
    getitem_str catalog_node "columns" = Ok raw_columns
    /\ py_iter raw_columns = Ok keys
    /\ Forall2 (fun key c =>
                  exists raw_column,
                    getitem raw_columns key = Ok raw_column
                    /\ column_of raw_column c)
         keys cols.
Proof.
  unfold get_columns. intros H.
  apply bind_Ok in H as (raw & Hraw & H).
  apply bind_Ok in H as (keys & Hkeys & H).
  exists raw, keys. split; [exact Hraw|]. split; [exact Hkeys|].
  apply mapM_Ok_Forall2 in H. eapply Forall2_impl; [|exact H].
  clear. intros key c H. cbv beta in H.
  apply bind_Ok in H as (rc & Hrc & H).
  apply bind_Ok in H as (cm & Hcm & H).
  apply bind_Ok in H as (ty & Hty & H).
  apply bind_Ok in H as (ix & Hix & H).
  apply bind_Ok in H as (nm & Hnm & H).
  injection H as <-. exists rc. split; [exact Hrc|].
  unfold column_of. simpl. auto.
Qed.

(** ** The driver *)

Lemma Forall2_In_r {A B} (P : A -> B -> Prop) xs ys y :
  Forall2 P xs ys -> In y ys -> exists x, In x xs /\ P x y.
Proof.
  induction 1 as [|x y' xs ys Hxy _ IH]; simpl; [tauto|].
  intros [<-|Hin]; [eauto|].
  destruct (IH Hin) as (x' & Hx' & HP). eauto.
Qed.

Lemma In_firstn_In {A} (n : nat) (l : list A) (x : A) :
  In x (firstn n l) -> In x l.
Proof.
  intros H. rewrite <- (firstn_skipn n l). apply in_or_app. now left.
Qed.

Lemma emit_node_Ok cfg platform w node w1 wu :
  emit_node cfg platform w node = (w1, Ok wu) ->
  id wu = datahub_urn node
  /\ exists rest,
      wu_aspects wu
      = PropertiesAspect {| dp_description := dbt_name node;
                            customProperties := get_custom_properties node;
                            tags := [] |}
        :: LineageAspect
             (get_upstream_lineage (time_time (w_ticks w)) (upstream_urns node))
        :: rest
      /\ if load_schemas cfg
         then exists r sm,
                get_schema_metadata (time_time (S (w_ticks w))) (w_report w)
                  node platform = (r, Ok sm)
                /\ rest = [SchemaAspect sm]
         else rest = [].
Proof.
  unfold emit_node. destruct (load_schemas cfg).
  - destruct (get_schema_metadata _ _ node platform) as [r [sm|e]];
      [|discriminate].
    intros [= <- <-]. split; [reflexivity|].
    exists [SchemaAspect sm]. split; [reflexivity|]. eauto.
  - intros [= <- <-]. split; [reflexivity|].
    exists []. split; reflexivity.
Qed.

Lemma emit_loop_yielded cfg platform nodes w :
  Forall2 (fun node wu =>
             exists w0 w1, emit_node cfg platform w0 node = (w1, Ok wu))
          (firstn (length (yielded (emit_loop cfg platform w nodes))) nodes)
          (yielded (emit_loop cfg platform w nodes))
  /\ (raised (emit_loop cfg platform w nodes) = None ->
      length (yielded (emit_loop cfg platform w nodes)) = length nodes).
Proof.
  revert w. induction nodes as [|node nodes IH]; intros w; simpl.
  - split; [constructor | reflexivity].
  - destruct (emit_node cfg platform w node) as [w1 [wu|e]] eqn:E; simpl.
    + destruct (IH w1) as [IH1 IH2]. split.
      * constructor; [eauto | exact IH1].
      * intros H. now rewrite IH2.
    + split; [constructor | discriminate].
Qed.

Lemma get_workunits_yielded self dbt_manifest_json dbt_catalog_json wu :
  In wu (yielded (get_workunits self dbt_manifest_json dbt_catalog_json)) ->
  exists nodes node w0 w1,
    loadManifestAndCatalog dbt_manifest_json dbt_catalog_json
      (load_schemas (config self)) (target_platform (config self))
      (env (config self)) (node_type_pattern (config self)) = Ok nodes
    /\ In node nodes
    /\ emit_node (config self) (source_platform self) w0 node = (w1, Ok wu).
Proof.
  unfold get_workunits.
  destruct (loadManifestAndCatalog _ _ _ _ _ _) as [nodes|e]; simpl; [|tauto].
  intros Hin.
  destruct (emit_loop_yielded (config self) (source_platform self) nodes
              {| w_report := report self; w_ticks := 0 |}) as [HF _].
  destruct (Forall2_In_r _ _ _ _ HF Hin) as (node & Hnode & w0 & w1 & He).
  exists nodes, node, w0, w1. split; [reflexivity|]. split; [|exact He].
  eapply In_firstn_In; eassumption.
Qed.

(** C5.  Every node extracted has its columns read from the catalog
    entry under its key when its materialization is not [ephemeral] and
    schema loading is on (one column for each key of the entry's columns
    object, with the comment, type, index and name found there), and has
    no columns otherwise; and a record the driver yields carries a schema
    record exactly when schema loading is on. *)
Theorem columns_and_schema_loading (nodes catalog : pydict)
    (load_catalog : bool) (target_platform environment : string)
    (node_type_pattern : json -> result bool) (ents : list DBTNode)
    (self : DBTSource) (dbt_manifest_json dbt_catalog_json : json) :
  (extract_dbt_entities nodes catalog load_catalog target_platform
     environment node_type_pattern = Ok ents ->
   forall d, In d ents -> columns_rule catalog load_catalog d)
  /\ (forall wu,
        In wu (yielded (get_workunits self dbt_manifest_json dbt_catalog_json)) ->
        existsb is_schema_aspect (wu_aspects wu) = load_schemas (config self)).
Proof.
  split.
  - intros H d Hd. apply extract_dbt_entities_Ok in H as [_ H2].
    destruct (H2 _ Hd) as (node & _ & Hx).
    apply extract_entity_Some in Hx
      as (? & ? & _ & _ & _ & _ & _ & _ & _ & _ & _ & _ & Hc & _).
    unfold columns_rule.
    destruct (negb (is_ephemeral (materialization d)) && load_catalog);
      [|exact Hc].
    destruct Hc as (catalog_node & Hcn & Hcols).
    exists catalog_node. split; [exact Hcn|]. split; [|exact Hcols].
    apply get_columns_Ok in Hcols as (raw & keys & Hraw & Hkeys & HF).
    exists raw, keys. split; [exact Hraw|]. split; [exact Hkeys|].
    split; [|exact HF].
    intros d0 ->. simpl in Hkeys. now injection Hkeys as <-.
  - intros wu Hin.
    apply get_workunits_yielded in Hin as (ns & node & w0 & w1 & _ & _ & He).
    apply emit_node_Ok in He as (_ & rest & -> & Hrest).
    simpl. destruct (load_schemas (config self)).
    + destruct Hrest as (r & sm & _ & ->). reflexivity.
    + now subst rest.
Qed.

(** C7.  The lineage record has one entry per upstream identifier, in
    the order given, each under the actor [urn:li:corpuser:dbt_executor]
    and of type TRANSFORMED; for no identifier it is a record with no
    entry.  Every record the driver yields carries, right after its
    properties, the lineage record of its node, and no other. *)
Theorem lineage_one_entry_per_upstream (now : Q) (upstream_urns0 : list string)
    (self : DBTSource) (dbt_manifest_json dbt_catalog_json : json) :
  map dataset (upstreams (get_upstream_lineage now upstream_urns0))
  = upstream_urns0
  /\ Forall (fun u => actor (auditStamp u) = "urn:li:corpuser:dbt_executor"
                      /\ type u = TRANSFORMED)
       (upstreams (get_upstream_lineage now upstream_urns0))
  /\ get_upstream_lineage now [] = {| upstreams := [] |}
  /\ (forall nodes,
        loadManifestAndCatalog dbt_manifest_json dbt_catalog_json
          (load_schemas (config self)) (target_platform (config self))
          (env (config self)) (node_type_pattern (config self)) = Ok nodes ->
        let t := get_workunits self dbt_manifest_json dbt_catalog_json in
        Forall2 carries_lineage
                (firstn (length (yielded t)) nodes) (yielded t)
        /\ (raised t = None -> length (yielded t) = length nodes)).
Proof.
  assert (Hmap : forall t l,
             map dataset (upstreams (get_upstream_lineage t l)) = l).
  { intros t l. unfold get_upstream_lineage. simpl.
    rewrite map_map. simpl. apply map_id. }
  split; [apply Hmap|]. split; [|split; [reflexivity|]].
  - unfold get_upstream_lineage. simpl. apply Forall_forall.
    intros u Hu. apply in_map_iff in Hu as (dep & <- & _). now split.
  - intros nodes Hload t. subst t. unfold get_workunits. rewrite Hload.
    destruct (emit_loop_yielded (config self) (source_platform self) nodes
                {| w_report := report self; w_ticks := 0 |}) as [HF Hlen].
    split; [|exact Hlen].
    eapply Forall2_impl; [|exact HF].
    intros node wu (w0 & w1 & He).
    apply emit_node_Ok in He as (_ & rest & Hasp & Hrest).
    eexists _, _, rest. split; [exact Hasp|]. split; [apply Hmap|].
    destruct (load_schemas (config self)).
    + destruct Hrest as (r & sm & _ & ->). reflexivity.
    + now subst rest.
Qed.

(** ** Columns *)


Lemma canonical_schema_Ok report dbt_name0 cols report' fs :
  canonical_schema report dbt_name0 cols = (report', Ok fs) ->
  Forall2 field_of cols fs.
Proof.
  revert report fs. induction cols as [|c cols IH]; simpl; intros report fs H.
  - injection H as _ <-. constructor.
  - destruct (get_column_type report dbt_name0 (col_data_type c))
      as [r1 [ty|e]]; [|discriminate].
    destruct (canonical_schema r1 dbt_name0 cols) as [r2 [fs'|e]] eqn:E;
      [|discriminate].
    injection H as <- <-. constructor; [|eapply IH; exact E].
    unfold field_of. simpl. auto.
Qed.

(** C6 (as amended).  The columns of a node come one per key of the
    catalog entry's [columns] object, in the order in which that object
    lists its keys, each with the [index] the catalog gives it; the
    index is recorded and takes no part in the order.  The fields of
    the schema record are the node's columns, one for one and in the
    same order. *)
Theorem columns_follow_document_order (catalog_node : json)
    (cols : list DBTColumn) (now : Q) (report report' : SourceReport)
    (node : DBTNode) (platform : string) (sm : SchemaMetadata) :
  (get_columns catalog_node = Ok cols ->
   in_document_order catalog_node cols)
  /\ (get_schema_metadata now report node platform = (report', Ok sm) ->
      Forall2 field_of (columns node) (fields sm)).
Proof.
  split.
  - intros H. apply get_columns_Ok in H as (raw & keys & Hraw & Hkeys & HF).
    exists raw, keys. split; [exact Hraw|]. split; [exact Hkeys|].
    split; [|exact HF].
    intros d ->. simpl in Hkeys. now injection Hkeys as <-.
  - unfold get_schema_metadata. intros H.
    destruct (canonical_schema report (dbt_name node) (columns node))
      as [r [fs|e]] eqn:E; [|discriminate].
    injection H as _ <-. simpl. eapply canonical_schema_Ok. exact E.
Qed.

(** ** Join errors *)

Lemma Forall2_In_l {A B} (P : A -> B -> Prop) xs ys x :
  Forall2 P xs ys -> In x xs -> exists y, In y ys /\ P x y.
Proof.
  induction 1 as [|x' y xs ys Hxy _ IH]; simpl; [tauto|].
  intros [<-|Hin]; [eauto|].
  destruct (IH Hin) as (y' & Hy' & HP). eauto.
Qed.

Lemma extract_entity_join_error nodes catalog load_catalog target_platform
    environment node_type_pattern key node missing :
  passes_filter node_type_pattern node = Ok true ->
  join_error nodes catalog load_catalog key node missing ->
  exists e,
    extract_entity nodes catalog load_catalog target_platform environment
      node_type_pattern key node = Err e.
Proof.
  intros Hp Hj.
  destruct (extract_entity nodes catalog load_catalog target_platform
              environment node_type_pattern key node) as [o|e] eqn:E;
    [exfalso | eauto].
  destruct (extract_entity_passed _ _ _ _ _ _ _ _ _ Hp E) as [d ->].
  apply extract_entity_Some in E
    as (fields & config' & -> & _ & _ & _ & _ & _ & _ & _ & Hcfg & Hm & Hc & _).
  assert (Hsame : forall config,
             getitem_str (JDict fields) "config" = Ok (JDict config) ->
             config = config').
  { intros config H. rewrite getitem_str_dict, Hcfg in H. congruence. }
  destruct Hj as [config ups items k Hconfig Hmat Hups Hit Hin Hnone
                 | config Hconfig Hmat Hnone
                 | config m Hconfig Hmat Heph Hlc Hnone];
    apply Hsame in Hconfig; subst config'.
  - apply dict_mem_get in Hmat as [m Hmat]. rewrite Hmat in Hm.
    destruct Hm as (_ & ups' & Hups' & Hus).
    rewrite Hups in Hups'. injection Hups' as <-.
    apply get_upstreams_Ok in Hus as (items' & Hit' & HF).
    rewrite Hit in Hit'. injection Hit' as <-.
    destruct (Forall2_In_l _ _ _ _ HF Hin) as (urn0 & _ & Hres).
    destruct Hres as (k' & fs & ? & ? & ? & [= <-] & Hk & _).
    congruence.
  - rewrite Hmat in Hm. destruct Hm as [Hct _].
    unfold catalog_type in Hct. cbn [dict_getitem] in Hct.
    rewrite Hnone in Hct. discriminate.
  - rewrite Hmat in Hm. destruct Hm as [Hm _].
    unfold columns_rule in Hc. rewrite Hm, Heph, Hlc in Hc.
    destruct Hc as (cn & Hcn & _). congruence.
Qed.

Lemma get_upstreams_first_missing upstreams all_nodes load_catalog
    target_platform environment before k after urns :
  py_iter upstreams = Ok (before ++ JStr k :: after)%list ->
  get_upstreams (JList before) all_nodes load_catalog target_platform
    environment = Ok urns ->
  dict_get k all_nodes = None ->
  get_upstreams upstreams all_nodes load_catalog target_platform environment
  = Err (KeyError (JStr k)).
Proof.
  unfold get_upstreams. intros -> Hb Hnone. cbn [py_iter bind] in *.
  revert urns Hb. induction before as [|b before IH]; intros urns Hb.
  - cbn [app mapM dict_getitem]. rewrite Hnone. reflexivity.
  - cbn [app mapM] in *.
    apply bind_Ok in Hb as (y & Hy & Hb).
    apply bind_Ok in Hb as (ys & Hys & _).
    rewrite Hy. cbn [bind]. now rewrite (IH _ Hys).
Qed.

Lemma extract_entity_first_join_error nodes catalog load_catalog
    target_platform environment node_type_pattern key node missing :
  passes_filter node_type_pattern node = Ok true ->
  first_join_error nodes catalog load_catalog target_platform environment
    key node missing ->
  extract_entity nodes catalog load_catalog target_platform environment
    node_type_pattern key node = Err (KeyError (JStr missing)).
Proof.
  intros Hp Hj. unfold passes_filter in Hp.
  apply bind_Ok in Hp as (rt & Hrt & Hok).
  assert (Hrun : forall config,
             has_entry_fields node load_catalog ->
             getitem_str node "config" = Ok (JDict config) ->
             exists database schema path name,
               extract_entity nodes catalog load_catalog target_platform
                 environment node_type_pattern key node
               = (mu <- (if dict_mem "materialized" config then
                           materialization <- getitem_str (JDict config) "materialized" ;;
                           depends_on <- getitem_str node "depends_on" ;;
                           upstreams <- getitem_str depends_on "nodes" ;;
                           upstream_urns <- get_upstreams upstreams nodes
                                              load_catalog target_platform
                                              environment ;;
                           Ok (materialization, upstream_urns)
                         else
                           catalog_node <- dict_getitem catalog (JStr key) ;;
                           metadata <- getitem_str catalog_node "metadata" ;;
                           materialization <- getitem_str metadata "type" ;;
                           Ok (materialization, [])) ;;
                  columns <- (if negb (is_ephemeral (fst mu)) && load_catalog then
                                catalog_node <- dict_getitem catalog (JStr key) ;;
                                get_columns catalog_node
                              else Ok []) ;;
                  Ok (Some {| dbt_name := key;
                              database := database;
                              schema := schema;
                              dbt_file_path := path;
                              node_type := rt;
                              materialization := fst mu;
                              name := name;
                              columns := columns;
                              upstream_urns := snd mu;
                              datahub_urn :=
                                get_urn_from_dbtNode (format_value database)
                                  (format_value schema) (format_value name)
                                  target_platform environment |}))).
  { intros config (fields & db & sc & fp & nm & -> & Hdb & Hsc & Hfp & Hnm) Hcfg.
    exists db, sc, fp, nm. unfold extract_entity.
    rewrite Hrt. cbn [bind]. rewrite Hok. cbn [bind negb].
    rewrite Hcfg.
    rewrite !getitem_str_dict in *. rewrite Hdb, Hsc, Hfp. cbn [bind py_contains].
    replace (Bool.eqb load_catalog false) with (negb load_catalog)
      by now destruct load_catalog.
    unfold logical_name_field in Hnm.
    assert (Hname :
              (if dict_mem "identifier" fields && negb load_catalog
               then getitem_str (JDict fields) "identifier"
               else getitem_str (JDict fields) "name") = Ok nm).
    { destruct (dict_mem "identifier" fields && negb load_catalog);
        now rewrite getitem_str_dict, Hnm. }
    rewrite !getitem_str_dict in Hname. rewrite Hname.
    cbn [bind py_keys]. rewrite existsb_keys.
    destruct (dict_get "resource_type" fields); [|discriminate].
    injection Hrt as ->.
    destruct (dict_get "config" fields); [|discriminate].
    injection Hcfg as ->. reflexivity. }
  destruct Hj as [config ups before k after urns Hf Hconfig Hmat Hups Hit Hb Hnone
                 | config Hf Hconfig Hmat Hnone
                 | config m ups urns Hf Hconfig Hmat Hups Hus Heph Hlc Hnone];
    destruct (Hrun _ Hf Hconfig) as (db & sc & fp & nm & ->).
  - rewrite Hmat. apply dict_mem_get in Hmat as [m Hmat].
    rewrite getitem_str_dict, Hmat. cbn [bind].
    unfold depends_on_nodes in Hups.
    apply bind_Ok in Hups as (dep & Hdep & Hups).
    rewrite Hdep. cbn [bind]. rewrite Hups. cbn [bind].
    now rewrite (get_upstreams_first_missing _ _ _ _ _ _ _ _ _ Hit Hb Hnone).
  - unfold dict_mem. rewrite Hmat. cbn [dict_getitem]. now rewrite Hnone.
  - unfold dict_mem. rewrite getitem_str_dict, Hmat. cbn [bind].
    unfold depends_on_nodes in Hups.
    apply bind_Ok in Hups as (dep & Hdep & Hups).
    rewrite Hdep. cbn [bind]. rewrite Hups. cbn [bind]. rewrite Hus.
    cbn [bind fst]. rewrite Heph, Hlc. cbn [negb andb dict_getitem].
    now rewrite Hnone.
Qed.

Lemma extract_loop_first_error nodes catalog load_catalog target_platform
    environment node_type_pattern before key node after ents0 e :
  extract_loop nodes catalog load_catalog target_platform environment
    node_type_pattern before = Ok ents0 ->
  extract_entity nodes catalog load_catalog target_platform environment
    node_type_pattern key node = Err e ->
  extract_loop nodes catalog load_catalog target_platform environment
    node_type_pattern (before ++ (key, node) :: after) = Err e.
Proof.
  revert ents0. induction before as [|[k n] before IH]; intros ents0 Hb He.
  - cbn [app extract_loop]. now rewrite He.
  - cbn [app extract_loop] in *.
    apply bind_Ok in Hb as (o & Ho & Hb).
    apply bind_Ok in Hb as (es & Hes & _).
    rewrite Ho. cbn [bind]. now rewrite (IH _ Hes He).
Qed.

(** C3 (as amended).  Take an entry of the combined manifest that passes
    the node-type filter and has a join error: it has [materialized] in
    its config and lists a dependency key the combined manifest lacks,
    or it needs the catalog (for its materialization, having no
    [materialized], or for its columns, being not ephemeral with schema
    loading on) and the combined catalog has nothing under its key.
    Then the load raises, and the driver yields no record and leaves the
    report as it was.  When the entries before it extract, its own
    fields are there and what is resolved before the missing entry
    resolves, the exception is the [KeyError] of the missing key. *)
Theorem join_error_aborts (self : DBTSource)
    (dbt_manifest_json dbt_catalog_json : json)
    (manifest_nodes manifest_sources catalog_nodes catalog_sources : pydict)
    (key : string) (node : json) (missing : string) :
  let cfg := config self in
  let nodes := dict_merge manifest_nodes manifest_sources in
  let catalog := dict_merge catalog_nodes catalog_sources in
  getitem_str dbt_manifest_json "nodes" = Ok (JDict manifest_nodes) ->
  getitem_str dbt_manifest_json "sources" = Ok (JDict manifest_sources) ->
  getitem_str dbt_catalog_json "nodes" = Ok (JDict catalog_nodes) ->
  getitem_str dbt_catalog_json "sources" = Ok (JDict catalog_sources) ->
  In (key, node) nodes ->
  passes_filter (node_type_pattern cfg) node = Ok true ->
  join_error nodes catalog (load_schemas cfg) key node missing ->
  (exists e,
      loadManifestAndCatalog dbt_manifest_json dbt_catalog_json
        (load_schemas cfg) (target_platform cfg) (env cfg)
        (node_type_pattern cfg) = Err e
      /\ get_workunits self dbt_manifest_json dbt_catalog_json
         = {| yielded := []; raised := Some e; final_report := report self |})
  /\ (forall before after ents0,
        nodes = (before ++ (key, node) :: after)%list ->
        extract_loop nodes catalog (load_schemas cfg) (target_platform cfg)
          (env cfg) (node_type_pattern cfg) before = Ok ents0 ->
        first_join_error nodes catalog (load_schemas cfg)
          (target_platform cfg) (env cfg) key node missing ->
        get_workunits self dbt_manifest_json dbt_catalog_json
        = {| yielded := [];
             raised := Some (KeyError (JStr missing));
             final_report := report self |}).
Proof.
  intros cfg nodes catalog H1 H2 H3 H4 Hin Hp Hj.
  assert (Hload :
            loadManifestAndCatalog dbt_manifest_json dbt_catalog_json
              (load_schemas cfg) (target_platform cfg) (env cfg)
              (node_type_pattern cfg)
            = extract_loop nodes catalog (load_schemas cfg)
                (target_platform cfg) (env cfg) (node_type_pattern cfg) nodes).
  { unfold loadManifestAndCatalog. rewrite H1, H2, H3, H4. reflexivity. }
  split.
  - destruct (extract_entity_join_error nodes catalog (load_schemas cfg)
                (target_platform cfg) (env cfg) (node_type_pattern cfg)
                key node missing Hp Hj) as [e0 He0].
    destruct (extract_loop_fails _ _ _ _ _ _ _ _ _ _ Hin He0) as [e He].
    exists e. split; [now rewrite Hload|].
    unfold get_workunits. fold cfg. now rewrite Hload, He.
  - intros before after ents0 Hsplit Hb Hfirst.
    pose proof (extract_entity_first_join_error _ _ _ _ _ _ _ _ _ Hp Hfirst)
      as He.
    pose proof (extract_loop_first_error _ _ _ _ _ _ _ _ _ after _ _ Hb He)
      as Hloop.
    rewrite <- Hsplit in Hloop.
    unfold get_workunits. fold cfg. now rewrite Hload, Hloop.
Qed.

(** * Further properties of the module *)

(** ** The identifier resolver *)

Lemma strip_quotes_fixed s : strip_quotes (strip_quotes s) = strip_quotes s.
Proof.
  unfold strip_quotes. induction s as [|c s IH]; simpl; [reflexivity|].
  destruct (Ascii.eqb c dquote) eqn:E; simpl; [exact IH|].
  now rewrite E, IH.
Qed.

(** X1.  Double quotes around or inside the database, the schema or the
    name make no difference to the identifier: the quoted and the unquoted
    spelling of a relation resolve to the same identifier. *)
Theorem urn_ignores_quotes (database schema name target_platform env : string) :
  get_urn_from_dbtNode database schema name target_platform env
  = get_urn_from_dbtNode (strip_quotes database) (strip_quotes schema)
      (strip_quotes name) target_platform env.
Proof.
  unfold get_urn_from_dbtNode.
  fold (strip_quotes (database ++ "." ++ schema ++ "." ++ name)).
  fold (strip_quotes
          (strip_quotes database ++ "." ++ strip_quotes schema ++ "."
             ++ strip_quotes name)).
  unfold strip_quotes at 1 2. rewrite !str_replace_app.
  fold (strip_quotes database). fold (strip_quotes schema).
  fold (strip_quotes name).
  fold (strip_quotes (strip_quotes database)).
  fold (strip_quotes (strip_quotes schema)).
  fold (strip_quotes (strip_quotes name)).
  now rewrite !strip_quotes_fixed.
Qed.

(** X2.  The dots that join the triple are not told apart from dots inside
    a component: moving a dot-separated part from the end of the database
    to the front of the schema gives the same identifier. *)
Theorem urn_dots_not_escaped (a b schema name target_platform env : string) :
  get_urn_from_dbtNode (a ++ "." ++ b) schema name target_platform env
  = get_urn_from_dbtNode a (b ++ "." ++ schema) name target_platform env.
Proof.
  unfold get_urn_from_dbtNode. now rewrite !str_app_assoc.
Qed.

(** ** The merged type table *)

Lemma dict_merge_mem {A} (a b : list (string * A)) k :
  dict_mem k a = true -> dict_mem k (dict_merge a b) = true.
Proof.
  unfold dict_merge. revert a.
  induction b as [|[k1 v1] b IH]; simpl; intros a H; [exact H|].
  apply IH. unfold dict_mem in *.
  destruct (String.eqb k k1) eqn:E.
  - apply String.eqb_eq in E. subst k1. now rewrite dict_get_set_same.
  - apply String.eqb_neq in E. now rewrite dict_get_set_other.
Qed.

(** X3.  In the merged type table a name found in the Snowflake table has
    the class that table gives it; otherwise the class of the Postgres
    table; otherwise the class the module itself lists. *)
Theorem field_type_mapping_precedence (k : string) :
  NoDup (map fst POSTGRES_TYPES_MAP) ->
  NoDup (map fst SNOWFLAKE_TYPES_MAP) ->
  dict_get k _field_type_mapping
  = match dict_get k SNOWFLAKE_TYPES_MAP with
    | Some t => Some t
    | None =>
        match dict_get k POSTGRES_TYPES_MAP with
        | Some t => Some t
        | None => dict_get k sql_field_types
        end
    end.
Proof.
  intros Hp Hs. unfold _field_type_mapping. fold sql_field_types.
  rewrite dict_merge_get by exact Hs.
  now rewrite dict_merge_get by exact Hp.
Qed.

Lemma dict_merge_get_absent {A} (a b : list (string * A)) k :
  dict_mem k b = false -> dict_get k (dict_merge a b) = dict_get k a.
Proof.
  unfold dict_merge, dict_mem. revert a.
  induction b as [|[k1 v1] b IH]; simpl; intros a H; [reflexivity|].
  destruct (String.eqb k1 k) eqn:E; [discriminate|].
  rewrite (IH _ H). apply dict_get_set_other.
  apply String.eqb_neq in E. congruence.
Qed.

Lemma sql_field_types_instantiate k v :
  dict_get k sql_field_types = Some v ->
  exists c, v = Some c /\ instantiate c = None.
Proof.
  unfold sql_field_types. cbn [dict_get].
  repeat match goal with
         | |- (if ?b then _ else _) = _ -> _ =>
             destruct b; [intros [= <-]; eexists; split; reflexivity|]
         end.
  discriminate.
Qed.

(** X4.  The nine SQL type names the module lists never produce a warning
    and never reach the vendor resolver, unless a vendor table has an
    entry of its own under the same name: the type mapper answers with
    the listed class and leaves the report as it was, whatever the
    resolver does. *)
Theorem listed_types_never_warn (report : SourceReport)
    (dataset_name column_type : string) :
  dict_mem column_type sql_field_types = true ->
  dict_mem column_type POSTGRES_TYPES_MAP = false ->
  dict_mem column_type SNOWFLAKE_TYPES_MAP = false ->
  exists c,
    dict_get column_type sql_field_types = Some (Some c)
    /\ get_column_type report dataset_name (JStr column_type)
       = (report, Ok {| data_type := c |}).
Proof.
  intros H Hp Hs.
  apply dict_mem_get in H as [v Hv].
  destruct (sql_field_types_instantiate _ _ Hv) as (c & -> & Hc).
  exists c. split; [exact Hv|].
  assert (Hm : dict_get column_type _field_type_mapping = Some (Some c)).
  { unfold _field_type_mapping. fold sql_field_types.
    now rewrite (dict_merge_get_absent _ _ _ Hs), (dict_merge_get_absent _ _ _ Hp). }
  unfold get_column_type. cbn [dict_get_method]. rewrite Hm.
  cbn [fst snd]. now rewrite Hc.
Qed.

Lemma get_column_type_effect (report report' : SourceReport)
    (dataset_name : string) (column_type : json)
    (res : result SchemaFieldDataType) :
  get_column_type report dataset_name column_type = (report', res) ->
  workunit_ids report' = workunit_ids report
  /\ (report' = report
      \/ (res = Ok {| data_type := NullTypeClass |}
          /\ is_unmapped column_type = true
          /\ warnings report'
             = (warnings report
                  ++ [unmapped_warning dataset_name column_type])%list))
  /\ (forall e, res = Err e -> report' = report).
Proof.
  unfold get_column_type, is_unmapped.
  destruct (dict_get_method _field_type_mapping column_type)
    as [[[c|]|]|e]; cbn [fst snd].
  - destruct (instantiate c); intros [= <- <-]; repeat split; auto;
      discriminate.
  - destruct (resolve_postgres_modified_type column_type) as [[c|]|e];
      cbn [fst snd instantiate];
      [destruct (instantiate c)| |];
      intros [= <- <-]; repeat split; auto; try discriminate.
  - destruct (resolve_postgres_modified_type column_type) as [[c|]|e];
      cbn [fst snd instantiate];
      [destruct (instantiate c)| |];
      intros [= <- <-]; repeat split; auto; try discriminate.
  - intros [= <- <-]. repeat split; auto.
Qed.

(** X5.  Whatever the column type is (a string or any other value) and
    whether the call returns or raises, the type mapper leaves the list of
    acknowledged work units alone; it either leaves the report as it was
    or appends the one warning for this dataset and type, and it appends
    that warning only when it answers with the null type; when it raises,
    the report is as it was. *)
Theorem get_column_type_report (report report' : SourceReport)
    (dataset_name : string) (column_type : json)
    (res : result SchemaFieldDataType) :
  get_column_type report dataset_name column_type = (report', res) ->
  workunit_ids report' = workunit_ids report
  /\ (report' = report
      \/ (res = Ok {| data_type := NullTypeClass |}
          /\ is_unmapped column_type = true
          /\ warnings report'
             = (warnings report
                  ++ [unmapped_warning dataset_name column_type])%list))
  /\ (forall e, res = Err e -> report' = report).
Proof.
  unfold get_column_type, is_unmapped.
  destruct (dict_get_method _field_type_mapping column_type)
    as [[[c|]|]|e]; cbn [fst snd].
  - destruct (instantiate c); intros [= <- <-]; repeat split; auto;
      discriminate.
  - destruct (resolve_postgres_modified_type column_type) as [[c|]|e];
      cbn [fst snd instantiate];
      [destruct (instantiate c)| |];
      intros [= <- <-]; repeat split; auto; try discriminate.
  - destruct (resolve_postgres_modified_type column_type) as [[c|]|e];
      cbn [fst snd instantiate];
      [destruct (instantiate c)| |];
      intros [= <- <-]; repeat split; auto; try discriminate.
  - intros [= <- <-]. repeat split; auto.
Qed.

(** ** The schema builder and the report *)

Lemma canonical_schema_report report dbt_name0 cols report' res :
  canonical_schema report dbt_name0 cols = (report', res) ->
  workunit_ids report' = workunit_ids report
  /\ exists new,
      warnings report' = (warnings report ++ new)%list
      /\ Forall (fun w => fst w = dbt_name0) new
      /\ (length new <= length cols)%nat.
Proof.
  revert report report' res.
  induction cols as [|c cols IH]; simpl; intros report report' res H.
  - injection H as <- <-. split; [reflexivity|].
    exists []. rewrite app_nil_r. repeat split; [apply Forall_nil | simpl; lia].
  - destruct (get_column_type report dbt_name0 (col_data_type c))
      as [r1 res1] eqn:E1.
    apply get_column_type_effect in E1 as (Hw1 & Hcase & _).
    assert (Hstep : exists new1,
               warnings r1 = (warnings report ++ new1)%list
               /\ Forall (fun w => fst w = dbt_name0) new1
               /\ (length new1 <= 1)%nat).
    { destruct Hcase as [-> | (_ & _ & Hwarn)].
      - exists []. rewrite app_nil_r. repeat split; [apply Forall_nil | simpl; lia].
      - exists [unmapped_warning dbt_name0 (col_data_type c)].
        split; [exact Hwarn|]. split; [|simpl; lia].
        constructor; [reflexivity | constructor]. }
    destruct Hstep as (new1 & Hn1 & HF1 & Hl1).
    destruct res1 as [ty|e].
    + destruct (canonical_schema r1 dbt_name0 cols) as [r2 res2] eqn:E2.
      apply IH in E2 as (Hw2 & new2 & Hn2 & HF2 & Hl2).
      assert (r2 = report') by (destruct res2; now injection H as <- _).
      subst r2. split; [congruence|].
      exists (new1 ++ new2)%list. rewrite Hn2, Hn1, app_assoc.
      split; [reflexivity|]. split; [now apply Forall_app|].
      rewrite length_app. lia.
    + injection H as <- _. split; [exact Hw1|].
      exists new1. split; [exact Hn1|]. split; [exact HF1 | lia].
Qed.

Lemma get_schema_metadata_effect (now : Q) (report report' : SourceReport)
    (node : DBTNode) (platform0 : string) (res : result SchemaMetadata) :
  get_schema_metadata now report node platform0 = (report', res) ->
  workunit_ids report' = workunit_ids report
  /\ exists new,
      warnings report' = (warnings report ++ new)%list
      /\ Forall (fun w => fst w = dbt_name node) new
      /\ (length new <= length (columns node))%nat.
Proof.
  unfold get_schema_metadata. intros H.
  destruct (canonical_schema report (dbt_name node) (columns node))
    as [r1 res1] eqn:E.
  apply canonical_schema_report in E.
  assert (r1 = report') by (destruct res1; now injection H as <- _).
  now subst r1.
Qed.

(** X6.  Whether it returns or raises, the schema builder leaves the list
    of acknowledged work units alone and only appends warnings to the
    report: what was recorded before stays, in place; every warning it adds
    is filed under the node's key, and it adds at most one per column. *)
Theorem get_schema_metadata_report (now : Q) (report report' : SourceReport)
    (node : DBTNode) (platform0 : string) (res : result SchemaMetadata) :
  get_schema_metadata now report node platform0 = (report', res) ->
  workunit_ids report' = workunit_ids report
  /\ exists new,
      warnings report' = (warnings report ++ new)%list
      /\ Forall (fun w => fst w = dbt_name node) new
      /\ (length new <= length (columns node))%nat.
Proof.
  unfold get_schema_metadata. intros H.
  destruct (canonical_schema report (dbt_name node) (columns node))
    as [r1 res1] eqn:E.
  apply canonical_schema_report in E.
  assert (r1 = report') by (destruct res1; now injection H as <- _).
  now subst r1.
Qed.

Lemma get_column_type_warnings report dataset_name column_type report' ty :
  get_column_type report dataset_name column_type = (report', Ok ty) ->
  warnings report'
  = (warnings report
       ++ if is_unmapped column_type
          then [unmapped_warning dataset_name column_type] else [])%list
  /\ (is_unmapped column_type = true -> data_type ty = NullTypeClass).
Proof.
  unfold get_column_type, is_unmapped.
  destruct (dict_get_method _field_type_mapping column_type)
    as [[[c|]|]|e]; cbn [fst snd]; [| | |discriminate].
  - destruct (instantiate c); intros [= <- <-].
    rewrite app_nil_r. split; [reflexivity | discriminate].
  - destruct (resolve_postgres_modified_type column_type) as [[c|]|e];
      cbn [fst snd instantiate]; [destruct (instantiate c)| |];
      intros [= <- <-]; try discriminate.
    + rewrite app_nil_r. split; [reflexivity | discriminate].
    + split; reflexivity.
  - destruct (resolve_postgres_modified_type column_type) as [[c|]|e];
      cbn [fst snd instantiate]; [destruct (instantiate c)| |];
      intros [= <- <-]; try discriminate.
    + rewrite app_nil_r. split; [reflexivity | discriminate].
    + split; reflexivity.
Qed.

Lemma canonical_schema_warnings report dbt_name0 cols report' fs :
  canonical_schema report dbt_name0 cols = (report', Ok fs) ->
  warnings report'
  = (warnings report
       ++ map (unmapped_warning dbt_name0)
            (filter is_unmapped (map col_data_type cols)))%list
  /\ length fs = length cols.
Proof.
  revert report report' fs.
  induction cols as [|c cols IH]; simpl; intros report report' fs H.
  - injection H as <- <-. now rewrite app_nil_r.
  - destruct (get_column_type report dbt_name0 (col_data_type c))
      as [r1 [ty|e]] eqn:E1; [|discriminate].
    destruct (canonical_schema r1 dbt_name0 cols) as [r2 [fs'|e]] eqn:E2;
      [|discriminate].
    injection H as <- <-. apply IH in E2 as [Hw2 Hlen].
    split; [|simpl; now rewrite Hlen].
    rewrite Hw2. clear Hw2 IH.
    apply get_column_type_warnings in E1 as [Hw1 _]. rewrite Hw1.
    destruct (is_unmapped (col_data_type c)); simpl.
    + now rewrite <- app_assoc.
    + now rewrite app_nil_r.
Qed.

(** X7.  When the schema builder returns, the schema has one field per
    column, and the warnings it added to the report are exactly those of
    the columns whose type neither the merged table nor the resolver maps,
    one each and in column order, repeated types included. *)
Theorem get_schema_metadata_warnings (now : Q) (report report' : SourceReport)
    (node : DBTNode) (platform0 : string) (sm : SchemaMetadata) :
  get_schema_metadata now report node platform0 = (report', Ok sm) ->
  warnings report'
  = (warnings report
       ++ map (unmapped_warning (dbt_name node))
            (filter is_unmapped (map col_data_type (columns node))))%list
  /\ length (fields sm) = length (columns node).
Proof.
  unfold get_schema_metadata. intros H.
  destruct (canonical_schema report (dbt_name node) (columns node))
    as [r1 [fs|e]] eqn:E; [|discriminate].
  injection H as <- <-. now apply canonical_schema_warnings in E.
Qed.

Lemma get_column_type_returns report dataset_name column_type :
  maps_without_raising column_type ->
  exists report' ty,
    get_column_type report dataset_name column_type = (report', Ok ty).
Proof.
  intros (s & -> & H). unfold table_class in H.
  unfold get_column_type. cbn [dict_get_method].
  destruct (dict_get s _field_type_mapping) as [[c|]|]; cbn [fst snd].
  - rewrite H. eauto.
  - destruct H as (o & -> & Ho). destruct o as [c|]; cbn [fst snd instantiate].
    + rewrite (Ho c eq_refl). eauto.
    + eauto.
  - destruct H as (o & -> & Ho). destruct o as [c|]; cbn [fst snd instantiate].
    + rewrite (Ho c eq_refl). eauto.
    + eauto.
Qed.

Lemma canonical_schema_returns report dbt_name0 cols :
  (forall c, In c cols -> maps_without_raising (col_data_type c)) ->
  exists report' fs, canonical_schema report dbt_name0 cols = (report', Ok fs).
Proof.
  revert report. induction cols as [|c cols IH]; simpl; intros report H.
  - eauto.
  - destruct (get_column_type_returns report dbt_name0 _
                (H c (or_introl eq_refl))) as (r1 & ty & E1).
    rewrite E1.
    destruct (IH r1 (fun c' Hc' => H c' (or_intror Hc'))) as (r2 & fs & ->).
    eauto.
Qed.

(** X8.  An unknown column type never fails the schema builder; only a
    raise in the vendor resolver or in the call of the class found does.
    If every column's type is a string for which the resolver, when it is
    asked, returns, and the class found for it, if any, can be called
    without arguments, the builder returns a schema, with the null type
    standing in for what is not mapped. *)
Theorem get_schema_metadata_total (now : Q) (report : SourceReport)
    (node : DBTNode) (platform0 : string) :
  (forall c, In c (columns node) ->
     maps_without_raising (col_data_type c)) ->
  exists report' sm,
    get_schema_metadata now report node platform0 = (report', Ok sm)
    /\ Forall2 field_of (columns node) (fields sm)
    /\ Forall2 (fun c f =>
                  is_unmapped (col_data_type c) = true ->
                  data_type (field_type f) = NullTypeClass)
         (columns node) (fields sm).
Proof.
  intros H.
  destruct (canonical_schema_returns report (dbt_name node) _ H)
    as (r1 & fs & E).
  unfold get_schema_metadata. rewrite E.
  eexists _, _. split; [reflexivity|]. cbn [fields].
  split; [eapply canonical_schema_Ok; exact E|].
  clear H. revert report r1 fs E.
  induction (columns node) as [|c cols IH]; simpl; intros report r1 fs E.
  - injection E as _ <-. constructor.
  - destruct (get_column_type report (dbt_name node) (col_data_type c))
      as [r2 [ty|e]] eqn:E1; [|discriminate].
    destruct (canonical_schema r2 (dbt_name node) cols) as [r3 [fs'|e]] eqn:E2;
      [|discriminate].
    injection E as _ <-. constructor; [|eapply IH; exact E2].
    cbn [field_type]. now apply get_column_type_warnings in E1 as [_ Hnull].
Qed.

(** ** The extraction: order, filter and catalog *)

Lemma extract_entity_None nodes catalog load_catalog target_platform
    environment node_type_pattern key node :
  extract_entity nodes catalog load_catalog target_platform environment
    node_type_pattern key node = Ok None ->
  passes_filter node_type_pattern node = Ok false.
Proof.
  unfold extract_entity, passes_filter. intros H.
  apply bind_Ok in H as (rt & Hrt & H).
  apply bind_Ok in H as (ok & Hok & H).
  rewrite Hrt. cbn [bind]. rewrite Hok.
  destruct ok; [exfalso | reflexivity]. cbn [negb] in H.
  repeat (apply bind_Ok in H as (? & _ & H)). discriminate.
Qed.

Lemma extract_loop_order nodes catalog load_catalog target_platform
    environment node_type_pattern items ents :
  extract_loop nodes catalog load_catalog target_platform environment
    node_type_pattern items = Ok ents ->
  map dbt_name ents = map fst (filter (kept node_type_pattern) items).
Proof.
  revert ents. induction items as [|[k n] items IH]; simpl; intros ents H.
  - now injection H as <-.
  - apply bind_Ok in H as (o & Ho & H).
    apply bind_Ok in H as (es & Hes & H).
    injection H as <-. specialize (IH _ Hes). unfold kept at 1. simpl.
    destruct o as [d|].
    + apply extract_entity_Some in Ho as (? & ? & _ & Hp & Hk & _).
      rewrite Hp. simpl. now rewrite Hk, IH.
    + apply extract_entity_None in Ho. now rewrite Ho.
Qed.

(** X9.  When the extraction returns, the nodes come in the order of the
    manifest map, one for each entry the node-type filter lets through and
    under that entry's key: no entry is extracted twice, reordered, or
    dropped for any reason but the filter. *)
Theorem extract_keeps_manifest_order (nodes catalog : pydict)
    (load_catalog : bool) (target_platform environment : string)
    (node_type_pattern : json -> result bool) (ents : list DBTNode) :
  extract_dbt_entities nodes catalog load_catalog target_platform
    environment node_type_pattern = Ok ents ->
  map dbt_name ents = map fst (filter (kept node_type_pattern) nodes).
Proof.
  unfold extract_dbt_entities. intros H.
  now apply extract_loop_order in H.
Qed.

Lemma extract_loop_rejected nodes catalog load_catalog target_platform
    environment node_type_pattern items :
  (forall key node, In (key, node) items ->
     passes_filter node_type_pattern node = Ok false) ->
  extract_loop nodes catalog load_catalog target_platform environment
    node_type_pattern items = Ok [].
Proof.
  induction items as [|[k n] items IH]; simpl; intros H; [reflexivity|].
  rewrite (extract_entity_skipped nodes catalog load_catalog target_platform
             environment node_type_pattern k n (H k n (or_introl eq_refl))).
  cbn [bind]. rewrite IH; [reflexivity|].
  intros key node Hin. apply (H key node). now right.
Qed.

(** X10.  An entry the node-type filter rejects is read for its
    [resource_type] and nothing else: a manifest whose entries are all
    rejected extracts to no node, without failure, whatever else the
    entries and the catalog hold or lack. *)
Theorem rejected_entries_not_read (nodes catalog : pydict)
    (load_catalog : bool) (target_platform environment : string)
    (node_type_pattern : json -> result bool) :
  (forall key node, In (key, node) nodes ->
     passes_filter node_type_pattern node = Ok false) ->
  extract_dbt_entities nodes catalog load_catalog target_platform
    environment node_type_pattern = Ok [].
Proof.
  unfold extract_dbt_entities. intros H.
  apply extract_loop_rejected. exact H.
Qed.

Lemma extract_entity_catalog_key nodes catalog catalog' load_catalog
    target_platform environment node_type_pattern key node :
  dict_get key catalog = dict_get key catalog' ->
  extract_entity nodes catalog load_catalog target_platform environment
    node_type_pattern key node
  = extract_entity nodes catalog' load_catalog target_platform environment
      node_type_pattern key node.
Proof.
  intros H. unfold extract_entity. cbn [dict_getitem]. now rewrite H.
Qed.

Lemma extract_loop_catalog_keys nodes catalog catalog' load_catalog
    target_platform environment node_type_pattern items :
  (forall key, In key (map fst items) ->
     dict_get key catalog = dict_get key catalog') ->
  extract_loop nodes catalog load_catalog target_platform environment
    node_type_pattern items
  = extract_loop nodes catalog' load_catalog target_platform environment
      node_type_pattern items.
Proof.
  induction items as [|[k n] items IH]; simpl; intros H; [reflexivity|].
  rewrite (extract_entity_catalog_key nodes catalog catalog' load_catalog
             target_platform environment node_type_pattern k n
             (H k (or_introl eq_refl))).
  rewrite IH; [reflexivity|]. intros key Hin. apply H. now right.
Qed.

(** X11.  The catalog is read only under the keys of the manifest: two
    catalogs that hold the same entries under those keys give the same
    result, nodes or exception, whatever else they hold. *)
Theorem catalog_read_by_manifest_key (nodes catalog catalog' : pydict)
    (load_catalog : bool) (target_platform environment : string)
    (node_type_pattern : json -> result bool) :
  (forall key, In key (map fst nodes) ->
     dict_get key catalog = dict_get key catalog') ->
  extract_dbt_entities nodes catalog load_catalog target_platform
    environment node_type_pattern
  = extract_dbt_entities nodes catalog' load_catalog target_platform
      environment node_type_pattern.
Proof.
  unfold extract_dbt_entities. intros H.
  apply extract_loop_catalog_keys. exact H.
Qed.

Lemma extract_entity_models_no_catalog nodes catalog catalog'
    target_platform environment node_type_pattern key node :
  (forall config, getitem_str node "config" = Ok (JDict config) ->
     dict_mem "materialized" config = true) ->
  extract_entity nodes catalog false target_platform environment
    node_type_pattern key node
  = extract_entity nodes catalog' false target_platform environment
      node_type_pattern key node.
Proof.
  intros H. unfold extract_entity.
  destruct (getitem_str node "resource_type") as [rt|]; [|reflexivity].
  cbn [bind]. destruct (node_type_pattern rt) as [[|]|]; try reflexivity.
  cbn [bind negb].
  destruct (getitem_str node "database"); [|reflexivity].
  destruct (getitem_str node "schema"); [|reflexivity].
  destruct (getitem_str node "original_file_path"); [|reflexivity].
  cbn [bind]. destruct (py_contains "identifier" node); [|reflexivity].
  cbn [bind].
  destruct (if a2 && Bool.eqb false false
            then getitem_str node "identifier"
            else getitem_str node "name"); [|reflexivity].
  cbn [bind].
  destruct (getitem_str node "config") as [cfg|] eqn:Hcfg; [|reflexivity].
  cbn [bind]. destruct cfg as [| | | | | |config]; try reflexivity.
  cbn [bind py_keys]. rewrite existsb_keys, (H config eq_refl).
  match goal with
  | |- bind ?c _ = _ => destruct c as [mu|]; [|reflexivity]
  end.
  cbn [bind]. now rewrite andb_false_r.
Qed.

Lemma extract_loop_models_no_catalog nodes catalog catalog'
    target_platform environment node_type_pattern items :
  (forall key node config,
     In (key, node) items ->
     getitem_str node "config" = Ok (JDict config) ->
     dict_mem "materialized" config = true) ->
  extract_loop nodes catalog false target_platform environment
    node_type_pattern items
  = extract_loop nodes catalog' false target_platform environment
      node_type_pattern items.
Proof.
  induction items as [|[k n] items IH]; simpl; intros H; [reflexivity|].
  rewrite (extract_entity_models_no_catalog nodes catalog catalog'
             target_platform environment node_type_pattern k n).
  - rewrite IH; [reflexivity|].
    intros key node config Hin. apply (H key node config). now right.
  - intros config. apply (H k n config). now left.
Qed.

(** X12.  With schema loading off, a manifest in which every entry with a
    config object has [materialized] in it is extracted without the
    catalog: the result is the same for every catalog, the empty one
    included. *)
Theorem models_without_schemas_need_no_catalog (nodes catalog catalog' : pydict)
    (target_platform environment : string)
    (node_type_pattern : json -> result bool) :
  (forall key node config,
     In (key, node) nodes ->
     getitem_str node "config" = Ok (JDict config) ->
     dict_mem "materialized" config = true) ->
  extract_dbt_entities nodes catalog false target_platform environment
    node_type_pattern
  = extract_dbt_entities nodes catalog' false target_platform environment
      node_type_pattern.
Proof.
  unfold extract_dbt_entities. intros H.
  apply extract_loop_models_no_catalog. exact H.
Qed.

(** ** Upstreams and columns *)

Lemma In_NoDup_dict_get {A} k (v : A) d :
  NoDup (map fst d) -> In (k, v) d -> dict_get k d = Some v.
Proof.
  induction d as [|[k' v'] d IH]; simpl; intros Hnd Hin; [tauto|].
  inversion Hnd as [|? ? Hnotin Hnd']; subst.
  destruct Hin as [[= -> ->]|Hin].
  - now rewrite String.eqb_refl.
  - destruct (String.eqb k' k) eqn:E; [|now apply IH].
    apply String.eqb_eq in E. subst k'. exfalso. apply Hnotin.
    apply in_map_iff. now exists (k, v).
Qed.

(** X13.  Lineage points at what the run emits: when the keys of the
    manifest are distinct and the extraction returns, every upstream
    identifier resolved from a dependency key is the identifier of the
    node extracted under that key, whenever there is one. *)
Theorem upstream_is_node_identifier (nodes catalog : pydict)
    (load_catalog : bool) (target_platform environment : string)
    (node_type_pattern : json -> result bool) (ents : list DBTNode)
    (upstreams0 : json) (urns : list string) :
  NoDup (map fst nodes) ->
  extract_dbt_entities nodes catalog load_catalog target_platform
    environment node_type_pattern = Ok ents ->
  get_upstreams upstreams0 nodes load_catalog target_platform environment
  = Ok urns ->
  exists items,
    py_iter upstreams0 = Ok items
    /\ Forall2 (fun item upstream_urn =>
                  forall d, In d ents -> item = JStr (dbt_name d) ->
                            upstream_urn = datahub_urn d)
         items urns.
Proof.
  intros Hnd Hx Hup.
  apply get_upstreams_Ok in Hup as (items & Hit & HF).
  exists items. split; [exact Hit|].
  eapply Forall2_impl; [|exact HF].
  intros item urn0 (k & fields & db & sc & nm & -> & Hk & Hdb & Hsc & Hnm & ->)
         d Hd [= ->].
  apply extract_dbt_entities_Ok in Hx as [_ H2].
  destruct (H2 _ Hd) as (node & Hin & He).
  apply extract_entity_Some in He
    as (fields' & config & -> & _ & _ & _ & Hdb' & Hsc' & _ & Hnm' & _ & _ & _ & ->).
  rewrite (In_NoDup_dict_get _ _ _ Hnd Hin) in Hk. injection Hk as <-.
  congruence.
Qed.

Lemma mapM_app {A B} (f : A -> result B) xs ys us vs :
  mapM f xs = Ok us -> mapM f ys = Ok vs ->
  mapM f (xs ++ ys) = Ok (us ++ vs)%list.
Proof.
  revert us. induction xs as [|x xs IH]; simpl; intros us Hx Hy.
  - now injection Hx as <-.
  - apply bind_Ok in Hx as (u & Hu & Hx).
    apply bind_Ok in Hx as (us' & Hus & Hx).
    injection Hx as <-. rewrite Hu. cbn [bind].
    now rewrite (IH _ Hus Hy).
Qed.

(** X14.  Upstream resolution goes key by key: the identifiers of a list
    of dependency keys are those of its first part followed by those of
    the rest, one identifier per key listed; a key listed twice gives its
    identifier twice. *)
Theorem get_upstreams_app (l1 l2 : list json) (all_nodes : pydict)
    (load_catalog : bool) (target_platform environment : string)
    (u1 u2 : list string) :
  get_upstreams (JList l1) all_nodes load_catalog target_platform environment
  = Ok u1 ->
  get_upstreams (JList l2) all_nodes load_catalog target_platform environment
  = Ok u2 ->
  get_upstreams (JList (l1 ++ l2)) all_nodes load_catalog target_platform
    environment = Ok (u1 ++ u2)%list
  /\ length u1 = length l1 /\ length u2 = length l2.
Proof.
  unfold get_upstreams. cbn [py_iter bind]. intros H1 H2.
  split; [now apply mapM_app|].
  apply mapM_Ok_Forall2 in H1, H2.
  split; symmetry; eapply Forall2_length; eassumption.
Qed.

Lemma Forall2_mapM {A B} (f : A -> result B) xs ys :
  Forall2 (fun x y => f x = Ok y) xs ys -> mapM f xs = Ok ys.
Proof.
  induction 1 as [|x y xs ys Hxy _ IH]; simpl; [reflexivity|].
  now rewrite Hxy, IH.
Qed.

(** X15.  A catalog entry whose [columns] object has distinct keys and
    whose every column has the four fields read (comment, type, index,
    name) always gives its columns: one per key, in key order, with those
    four values. *)
Theorem get_columns_complete (catalog_node : json) (raw_columns : pydict)
    (cols : list DBTColumn) :
  getitem_str catalog_node "columns" = Ok (JDict raw_columns) ->
  NoDup (map fst raw_columns) ->
  Forall2 (fun kv c => column_of (snd kv) c) raw_columns cols ->
  get_columns catalog_node = Ok cols.
Proof.
  intros Hraw Hnd HF. unfold get_columns. rewrite Hraw. cbn [bind py_iter].
  apply Forall2_mapM.
  assert (Hlook : forall kv, In kv raw_columns ->
             getitem (JDict raw_columns) (JStr (fst kv)) = Ok (snd kv)).
  { intros [k v] Hin. cbn [getitem dict_getitem fst snd].
    now rewrite (In_NoDup_dict_get _ _ _ Hnd Hin). }
  clear Hnd Hraw.
  assert (Hgen : forall sub cols0,
             (forall kv, In kv sub -> In kv raw_columns) ->
             Forall2 (fun kv c => column_of (snd kv) c) sub cols0 ->
             Forall2
               (fun key c =>
                  (raw_column <- getitem (JDict raw_columns) key ;;
                   comment <- getitem_str raw_column "comment" ;;
                   data_type <- getitem_str raw_column "type" ;;
                   index <- getitem_str raw_column "index" ;;
                   name <- getitem_str raw_column "name" ;;
                   Ok {| col_name := name; col_comment := comment;
                         col_index := index; col_data_type := data_type |})
                  = Ok c)
               (map (fun kv => JStr (fst kv)) sub) cols0).
  { intros sub cols0 Hsub HF0.
    induction HF0 as [|kv c raw cols1 Hc _ IH]; simpl; constructor.
    - destruct c as [cn cc ci ct]. destruct Hc as (Hcm & Hty & Hix & Hnm).
      simpl in *. rewrite (Hlook kv (Hsub kv (or_introl eq_refl))).
      cbn [bind]. now rewrite Hcm, Hty, Hix, Hnm.
    - apply IH. intros kv' Hin. apply Hsub. now right. }
  apply Hgen; [auto | exact HF].
Qed.

(** ** Entries with and without their fields *)

Lemma extract_entity_missing_field nodes catalog load_catalog target_platform
    environment node_type_pattern key fields f :
  passes_filter node_type_pattern (JDict fields) = Ok true ->
  first_missing_field fields load_catalog = Some f ->
  extract_entity nodes catalog load_catalog target_platform environment
    node_type_pattern key (JDict fields) = Err (KeyError (JStr f)).
Proof.
  unfold passes_filter, first_missing_field, logical_name_field.
  intros Hp Hf. apply bind_Ok in Hp as (rt & Hrt & Hok).
  unfold extract_entity. rewrite Hrt. cbn [bind]. rewrite Hok.
  cbn [bind negb py_contains]. rewrite !getitem_str_dict.
  replace (Bool.eqb load_catalog false) with (negb load_catalog)
    by now destruct load_catalog.
  cbn [find] in Hf. unfold dict_mem in Hf at 1.
  destruct (dict_get "database" fields);
    [cbn [negb] in Hf | now injection Hf as <-].
  unfold dict_mem in Hf at 1.
  destruct (dict_get "schema" fields);
    [cbn [negb] in Hf | now injection Hf as <-].
  unfold dict_mem in Hf at 1.
  destruct (dict_get "original_file_path" fields);
    [cbn [negb] in Hf | now injection Hf as <-].
  cbn [bind]. rewrite getitem_str_dict in Hrt.
  destruct (dict_get "resource_type" fields); [|discriminate]. cbn [bind].
  destruct (dict_mem "identifier" fields && negb load_catalog).
  - unfold dict_mem in Hf at 1.
    destruct (dict_get "identifier" fields);
      [cbn [negb] in Hf | now injection Hf as <-].
    cbn [bind]. unfold dict_mem in Hf.
    destruct (dict_get "config" fields); [discriminate | now injection Hf as <-].
  - unfold dict_mem in Hf at 1.
    destruct (dict_get "name" fields);
      [cbn [negb] in Hf | now injection Hf as <-].
    cbn [bind]. unfold dict_mem in Hf.
    destruct (dict_get "config" fields); [discriminate | now injection Hf as <-].
Qed.

(** X16.  An entry that passes the filter and lacks one of the fields it
    is read for (database, schema, original_file_path, then identifier or
    name as the naming rule picks, then config) stops the run with the
    [KeyError] of the first such field, once the entries before it have
    extracted; with schema loading off an entry that has an identifier is
    not asked for its name. *)
Theorem missing_field_is_KeyError (nodes catalog : pydict)
    (load_catalog : bool) (target_platform environment : string)
    (node_type_pattern : json -> result bool)
    (before after : list (string * json)) (ents0 : list DBTNode)
    (key : string) (fields : pydict) (f : string) :
  nodes = (before ++ (key, JDict fields) :: after)%list ->
  extract_loop nodes catalog load_catalog target_platform environment
    node_type_pattern before = Ok ents0 ->
  passes_filter node_type_pattern (JDict fields) = Ok true ->
  first_missing_field fields load_catalog = Some f ->
  extract_dbt_entities nodes catalog load_catalog target_platform
    environment node_type_pattern = Err (KeyError (JStr f))
  /\ (dict_mem "identifier" fields = true -> load_catalog = false ->
      f <> "name").
Proof.
  intros Hsplit Hb Hp Hf. split.
  - unfold extract_dbt_entities. rewrite Hsplit at 2.
    eapply extract_loop_first_error; [exact Hb|].
    now apply extract_entity_missing_field.
  - intros Hid ->. unfold first_missing_field, logical_name_field in Hf.
    rewrite Hid in Hf. cbn [andb negb find] in Hf.
    destruct (negb (dict_mem "database" fields)); [now injection Hf as <-|].
    destruct (negb (dict_mem "schema" fields)); [now injection Hf as <-|].
    destruct (negb (dict_mem "original_file_path" fields));
      [now injection Hf as <-|].
    rewrite Hid in Hf. cbn [negb] in Hf.
    destruct (negb (dict_mem "config" fields)); [now injection Hf as <-|].
    discriminate.
Qed.

(** X17.  A model that is ephemeral, or that is extracted with schema
    loading off, needs no catalog entry: with its fields present and its
    dependencies resolving, it is extracted with no columns, whatever the
    catalog holds under its key. *)
Theorem model_without_columns_needs_no_catalog (nodes catalog : pydict)
    (load_catalog : bool) (target_platform environment : string)
    (node_type_pattern : json -> result bool) (key : string)
    (fields config : pydict) (rt db sc fp nm m ups : json)
    (urns : list string) :
  passes_filter node_type_pattern (JDict fields) = Ok true ->
  dict_get "resource_type" fields = Some rt ->
  dict_get "database" fields = Some db ->
  dict_get "schema" fields = Some sc ->
  dict_get "original_file_path" fields = Some fp ->
  dict_get (logical_name_field fields load_catalog) fields = Some nm ->
  dict_get "config" fields = Some (JDict config) ->
  dict_get "materialized" config = Some m ->
  depends_on_nodes (JDict fields) = Ok ups ->
  get_upstreams ups nodes load_catalog target_platform environment = Ok urns ->
  is_ephemeral m = true \/ load_catalog = false ->
  extract_entity nodes catalog load_catalog target_platform environment
    node_type_pattern key (JDict fields)
  = Ok (Some {| dbt_name := key;
                database := db;
                schema := sc;
                dbt_file_path := fp;
                node_type := rt;
                materialization := m;
                name := nm;
                columns := [];
                upstream_urns := urns;
                datahub_urn :=
                  get_urn_from_dbtNode (format_value db) (format_value sc)
                    (format_value nm) target_platform environment |}).
Proof.
  unfold passes_filter, logical_name_field, depends_on_nodes.
  intros Hp Hrt Hdb Hsc Hfp Hnm Hcfg Hm Hups Hus Hcase.
  apply bind_Ok in Hp as (rt' & Hrt' & Hok).
  apply bind_Ok in Hups as (dep & Hdep & Hups).
  unfold extract_entity. rewrite Hrt'. cbn [bind]. rewrite Hok.
  cbn [bind negb py_contains].
  rewrite getitem_str_dict, Hrt in Hrt'. injection Hrt' as <-.
  rewrite Hdep. rewrite !getitem_str_dict. rewrite Hdb, Hsc, Hfp, Hcfg.
  cbn [bind py_keys]. rewrite existsb_keys.
  replace (Bool.eqb load_catalog false) with (negb load_catalog)
    by now destruct load_catalog.
  assert (Hname :
            (if dict_mem "identifier" fields && negb load_catalog
             then match dict_get "identifier" fields with
                  | Some v => Ok v
                  | None => Err (KeyError (JStr "identifier"))
                  end
             else match dict_get "name" fields with
                  | Some v => Ok v
                  | None => Err (KeyError (JStr "name"))
                  end) = Ok nm).
  { destruct (dict_mem "identifier" fields && negb load_catalog);
      now rewrite Hnm. }
  rewrite Hname. cbn [bind]. unfold dict_mem. rewrite Hm.
  rewrite getitem_str_dict, Hm. cbn [bind].
  rewrite Hups. cbn [bind]. rewrite Hus. cbn [bind fst snd].
  destruct Hcase as [-> | ->]; [reflexivity|].
  now rewrite andb_false_r.
Qed.

(** ** The loader *)

(** X18.  Of the two parsed documents the manifest is read first: when
    both files have been opened and parsed, a manifest object without
    [nodes], or with [nodes] and without [sources], fails with the
    [KeyError] of that key, and one whose [nodes] or [sources] is not a
    mapping fails with a [TypeError], whatever value the catalog file
    parsed to. *)
Theorem manifest_value_read_first (m : pydict) (dbt_catalog_json n s : json)
    (load_catalog : bool) (target_platform environment : string)
    (node_type_pattern : json -> result bool) :
  (dict_get "nodes" m = None ->
   loadManifestAndCatalog (JDict m) dbt_catalog_json load_catalog
     target_platform environment node_type_pattern
   = Err (KeyError (JStr "nodes")))
  /\ (dict_get "nodes" m = Some n -> dict_get "sources" m = None ->
      loadManifestAndCatalog (JDict m) dbt_catalog_json load_catalog
        target_platform environment node_type_pattern
      = Err (KeyError (JStr "sources")))
  /\ (dict_get "nodes" m = Some n -> dict_get "sources" m = Some s ->
      (forall dn ds, n = JDict dn -> s = JDict ds -> False) ->
      loadManifestAndCatalog (JDict m) dbt_catalog_json load_catalog
        target_platform environment node_type_pattern
      = Err TypeError).
Proof.
  unfold loadManifestAndCatalog. rewrite !getitem_str_dict.
  split; [|split].
  - now intros ->.
  - now intros -> ->.
  - intros -> -> H. cbn [bind].
    destruct n; try reflexivity. destruct s; try reflexivity.
    exfalso. eapply H; reflexivity.
Qed.

(** ** The order of the combined map *)

Lemma dict_mem_set {A} k k' (v : A) d :
  dict_mem k (dict_set k' v d) = String.eqb k' k || dict_mem k d.
Proof.
  unfold dict_mem. destruct (String.eqb k' k) eqn:E.
  - apply String.eqb_eq in E. subst k'. now rewrite dict_get_set_same.
  - apply String.eqb_neq in E. rewrite dict_get_set_other by congruence.
    reflexivity.
Qed.

(** X19.  The combined map lists the keys of [nodes] first, in their
    order, then the keys that only [sources] has, in theirs: a key of both
    keeps the place it has in [nodes]. *)
Theorem dict_merge_key_order {A} (a b : list (string * A)) :
  NoDup (map fst b) ->
  map fst (dict_merge a b)
  = (map fst a ++ filter (fun k => negb (dict_mem k a)) (map fst b))%list.
Proof.
  unfold dict_merge. revert a.
  induction b as [|[k1 v1] b IH]; simpl; intros a Hnd.
  - now rewrite app_nil_r.
  - inversion Hnd as [|? ? Hnotin Hnd']; subst.
    rewrite (IH _ Hnd'), dict_set_keys.
    assert (Hfilter :
              filter (fun k => negb (dict_mem k (dict_set k1 v1 a))) (map fst b)
              = filter (fun k => negb (dict_mem k a)) (map fst b)).
    { apply filter_ext_in. intros k Hk. rewrite dict_mem_set.
      destruct (String.eqb k1 k) eqn:E; [|reflexivity].
      apply String.eqb_eq in E. subst k. contradiction. }
    rewrite Hfilter.
    destruct (dict_mem k1 a); simpl; [reflexivity|].
    now rewrite <- app_assoc.
Qed.

(** ** The driver and its report *)

Lemma emit_node_effect cfg platform0 w node w1 res :
  emit_node cfg platform0 w node = (w1, res) ->
  workunit_ids (w_report w1)
  = (workunit_ids (w_report w)
       ++ match res with Ok wu => [id wu] | Err _ => [] end)%list
  /\ (forall wu, res = Ok wu ->
        id wu = datahub_urn node /\ urn (proposedSnapshot (mce wu)) = id wu)
  /\ exists new,
      warnings (w_report w1) = (warnings (w_report w) ++ new)%list
      /\ Forall (fun x => fst x = dbt_name node) new
      /\ (load_schemas cfg = false -> new = [] /\ exists wu, res = Ok wu).
Proof.
  unfold emit_node. destruct (load_schemas cfg).
  - destruct (get_schema_metadata (time_time (S (w_ticks w))) (w_report w)
                node platform0) as [r res0] eqn:E.
    apply get_schema_metadata_effect in E as (Hids & new & Hw & HF & _).
    destruct res0 as [sm|e]; intros [= <- <-]; cbn [w_report report_workunit
      workunit_ids warnings id mce proposedSnapshot urn].
    + split; [now rewrite Hids|]. split; [now intros wu [= <-]|].
      exists new. repeat split; auto; discriminate.
    + split; [now rewrite Hids, app_nil_r|]. split; [discriminate|].
      exists new. repeat split; auto; discriminate.
  - intros [= <- <-]. cbn [w_report report_workunit workunit_ids warnings
                             id mce proposedSnapshot urn].
    split; [reflexivity|]. split; [now intros wu [= <-]|].
    exists []. rewrite app_nil_r. repeat split; eauto.
Qed.

Lemma emit_loop_report cfg platform0 nodes w :
  workunit_ids (final_report (emit_loop cfg platform0 w nodes))
  = (workunit_ids (w_report w)
       ++ map id (yielded (emit_loop cfg platform0 w nodes)))%list
  /\ map id (yielded (emit_loop cfg platform0 w nodes))
     = map datahub_urn
         (firstn (length (yielded (emit_loop cfg platform0 w nodes))) nodes)
  /\ Forall (fun wu => urn (proposedSnapshot (mce wu)) = id wu)
       (yielded (emit_loop cfg platform0 w nodes))
  /\ exists new,
      warnings (final_report (emit_loop cfg platform0 w nodes))
      = (warnings (w_report w) ++ new)%list
      /\ Forall (fun x => exists node, In node nodes /\ fst x = dbt_name node)
           new
      /\ (load_schemas cfg = false ->
          new = [] /\ raised (emit_loop cfg platform0 w nodes) = None).
Proof.
  revert w. induction nodes as [|node nodes IH]; intros w.
  - cbn [emit_loop yielded final_report raised map length firstn].
    rewrite app_nil_r. repeat split; [constructor|].
    exists []. rewrite app_nil_r. repeat split. constructor.
  - cbn [emit_loop].
    destruct (emit_node cfg platform0 w node) as [w1 res] eqn:E.
    apply emit_node_effect in E as (Hids & Hwu & new1 & Hw1 & HF1 & Hoff).
    assert (HF1' : Forall (fun x => exists node0,
                             In node0 (node :: nodes)
                             /\ fst x = dbt_name node0) new1).
    { eapply Forall_impl; [|exact HF1]. intros x Hx. exists node.
      split; [now left | exact Hx]. }
    destruct res as [wu|e].
    + destruct (IH w1) as (Hids2 & Hmap2 & Hurn2 & new2 & Hw2 & HF2 & Hoff2).
      destruct (Hwu wu eq_refl) as [Hid Hurn].
      cbn [yielded final_report raised map length firstn].
      split; [rewrite Hids2, Hids, <- app_assoc; reflexivity|].
      split; [now rewrite Hid, Hmap2|].
      split; [constructor; assumption|].
      exists (new1 ++ new2)%list. rewrite Hw2, Hw1, app_assoc.
      split; [reflexivity|]. split.
      * apply Forall_app. split; [exact HF1'|].
        eapply Forall_impl; [|exact HF2].
        intros x (node0 & Hin & Hx). exists node0. split; [now right | exact Hx].
      * intros Hcfg. destruct (Hoff Hcfg) as [-> _].
        destruct (Hoff2 Hcfg) as [-> Hr]. now split.
    + cbn [yielded final_report raised map length firstn].
      rewrite app_nil_r in Hids.
      split; [now rewrite Hids, app_nil_r|]. split; [reflexivity|].
      split; [constructor|].
      exists new1. split; [exact Hw1|]. split; [exact HF1'|].
      intros Hcfg. destruct (Hoff Hcfg) as (_ & wu & Hwu'). discriminate.
Qed.

(** X20.  The report acknowledges exactly the records yielded, in the
    order of yielding, also when an exception ends the run; each record is
    filed under the identifier of its snapshot, and the identifiers yielded
    are those of the extracted nodes, in order, up to where the run got. *)
Theorem yielded_records_acknowledged (self : DBTSource)
    (dbt_manifest_json dbt_catalog_json : json) :
  let t := get_workunits self dbt_manifest_json dbt_catalog_json in
  workunit_ids (final_report t)
  = (workunit_ids (report self) ++ map id (yielded t))%list
  /\ Forall (fun wu => urn (proposedSnapshot (mce wu)) = id wu) (yielded t)
  /\ (forall nodes,
        loadManifestAndCatalog dbt_manifest_json dbt_catalog_json
          (load_schemas (config self)) (target_platform (config self))
          (env (config self)) (node_type_pattern (config self)) = Ok nodes ->
        map id (yielded t)
        = map datahub_urn (firstn (length (yielded t)) nodes)).
Proof.
  intros t. subst t. unfold get_workunits.
  destruct (loadManifestAndCatalog _ _ _ _ _ _) as [nodes|e].
  - destruct (emit_loop_report (config self) (source_platform self) nodes
                {| w_report := report self; w_ticks := 0 |})
      as (Hids & Hmap & Hurn & _).
    split; [exact Hids|]. split; [exact Hurn|].
    now intros nodes' [= <-].
  - cbn [yielded final_report map]. rewrite app_nil_r.
    split; [reflexivity|]. split; [constructor | discriminate].
Qed.

(** X21.  With schema loading off, nothing can fail once the extraction
    has returned: every extracted node yields its record, in order, and
    the run adds no warning to the report. *)
Theorem no_schemas_no_failure (self : DBTSource)
    (dbt_manifest_json dbt_catalog_json : json) (nodes : list DBTNode) :
  load_schemas (config self) = false ->
  loadManifestAndCatalog dbt_manifest_json dbt_catalog_json
    (load_schemas (config self)) (target_platform (config self))
    (env (config self)) (node_type_pattern (config self)) = Ok nodes ->
  let t := get_workunits self dbt_manifest_json dbt_catalog_json in
  raised t = None
  /\ map id (yielded t) = map datahub_urn nodes
  /\ warnings (final_report t) = warnings (report self).
Proof.
  intros Hoff Hload t. subst t. unfold get_workunits. rewrite Hload.
  destruct (emit_loop_report (config self) (source_platform self) nodes
              {| w_report := report self; w_ticks := 0 |})
    as (_ & Hmap & _ & new & Hw & _ & Hnew).
  destruct (Hnew Hoff) as [-> Hr].
  destruct (emit_loop_yielded (config self) (source_platform self) nodes
              {| w_report := report self; w_ticks := 0 |}) as [_ Hlen].
  split; [exact Hr|]. split.
  - rewrite Hmap, (Hlen Hr). now rewrite firstn_all.
  - rewrite Hw. cbn [w_report]. now rewrite app_nil_r.
Qed.

(** X22.  Every warning a run adds to the report is filed under the key
    of one of the nodes it extracted, and what the report held before the
    run is kept in front. *)
Theorem warnings_name_extracted_nodes (self : DBTSource)
    (dbt_manifest_json dbt_catalog_json : json) (nodes : list DBTNode) :
  loadManifestAndCatalog dbt_manifest_json dbt_catalog_json
    (load_schemas (config self)) (target_platform (config self))
    (env (config self)) (node_type_pattern (config self)) = Ok nodes ->
  exists new,
    warnings (final_report
                (get_workunits self dbt_manifest_json dbt_catalog_json))
    = (warnings (report self) ++ new)%list
    /\ Forall (fun x => exists node, In node nodes /\ fst x = dbt_name node) new.
Proof.
  intros Hload. unfold get_workunits. rewrite Hload.
  destruct (emit_loop_report (config self) (source_platform self) nodes
              {| w_report := report self; w_ticks := 0 |})
    as (_ & _ & _ & new & Hw & HF & _).
  exists new. now split.
Qed.

(** X23.  A source made by [create] stamps every schema record with the
    platform [urn:li:dataPlatform:dbt], whatever target platform the
    dataset identifiers are built with; the two audit stamps of a schema
    record are equal and none of its fields is nullable or recursive. *)
Theorem schema_platform_is_dbt (cfg : DBTConfig)
    (dbt_manifest_json dbt_catalog_json : json)
    (wu : MetadataWorkUnit) (sm : SchemaMetadata) :
  In wu (yielded (get_workunits (create cfg) dbt_manifest_json
                    dbt_catalog_json)) ->
  In (SchemaAspect sm) (wu_aspects wu) ->
  platform sm = "urn:li:dataPlatform:dbt"
  /\ created sm = lastModified sm
  /\ Forall (fun f => nullable f = false /\ recursive f = false) (fields sm).
Proof.
  intros Hwu Hsm.
  apply get_workunits_yielded in Hwu as (ns & node & w0 & w1 & _ & _ & He).
  apply emit_node_Ok in He as (_ & rest & Hasp & Hrest).
  rewrite Hasp in Hsm. destruct Hsm as [Hsm | [Hsm | Hsm]]; try discriminate.
  destruct (load_schemas (config (create cfg)));
    [|subst rest; destruct Hsm].
  destruct Hrest as (r & sm' & Hbuild & ->).
  destruct Hsm as [[= ->] | []].
  unfold get_schema_metadata in Hbuild.
  destruct (canonical_schema _ _ _) as [r1 [fs|e]] eqn:E; [|discriminate].
  apply canonical_schema_Ok in E as HF.
  injection Hbuild as _ <-. cbn [platform created lastModified fields] in *.
  repeat split.
  clear -HF. induction HF as [|c f cols fs0 Hf _ IH]; constructor; auto.
  now destruct Hf as (_ & _ & _ & Hn & Hr).
Qed.

End Source.

(** * The properties on the sample documents *)

Local Abbreviation extract_samples :=
  (extract_dbt_entities Samples.py_str
     (dict_merge Samples.manifest_nodes Samples.manifest_sources)
     (dict_merge Samples.catalog_nodes Samples.catalog_sources)).

Local Abbreviation run_samples :=
  (get_workunits Samples.py_str Samples.POSTGRES_TYPES_MAP
     Samples.SNOWFLAKE_TYPES_MAP Samples.resolve_postgres_modified_type
     Samples.call_vendor_class
     Samples.time_time).

Local Abbreviation load_samples :=
  (loadManifestAndCatalog Samples.py_str).

Local Abbreviation schema_samples :=
  (get_schema_metadata Samples.py_str Samples.POSTGRES_TYPES_MAP
     Samples.SNOWFLAKE_TYPES_MAP Samples.resolve_postgres_modified_type
     Samples.call_vendor_class).

Local Ltac nodup_keys :=
  repeat constructor; simpl; intuition discriminate.

(** The claim C1 as it stands fails on a platform tag that holds double
    quotes: they reach the identifier. *)
Lemma get_urn_platform_quotes_kept :
  get_urn_from_dbtNode "db" "public" "orders" Samples.quoted_platform "PROD"
  = "urn:li:dataset:(urn:li:dataPlatform:"
      ++ Samples.quoted_platform ++ ",db.public.orders,PROD)"
  /\ has_quote
       (get_urn_from_dbtNode "db" "public" "orders" Samples.quoted_platform "PROD")
     = true.
Proof. split; reflexivity. Qed.

(** C10 on a manifest with one key in both maps: the entry of [sources]
    is the one kept. *)
Lemma merge_later_operand_wins_witness :
  dict_get "source.shop.raw_events" Samples.overlap_nodes = Some Samples.dangling
  /\ dict_get "source.shop.raw_events"
       (dict_merge Samples.overlap_nodes Samples.manifest_sources)
     = Some Samples.raw_events
  /\ load_samples Samples.manifest_overlap Samples.catalog true "postgres" "PROD"
       Samples.allow_all
     = extract_dbt_entities Samples.py_str
         (dict_merge Samples.overlap_nodes Samples.manifest_sources)
         (dict_merge Samples.catalog_nodes Samples.catalog_sources)
         true "postgres" "PROD" Samples.allow_all.
Proof.
  split; [reflexivity|].
  destruct (merge_later_operand_wins Samples.py_str
              Samples.overlap_nodes Samples.manifest_sources
              Samples.catalog_nodes Samples.catalog_sources
              Samples.manifest_overlap Samples.catalog
              true "postgres" "PROD" Samples.allow_all "source.shop.raw_events")
    as (_ & H & _ & _ & Hload);
    [nodup_keys | nodup_keys | nodup_keys | nodup_keys
     | reflexivity | reflexivity | reflexivity | reflexivity |].
  split; [exact H | exact Hload].
Defined.

(** C9 at a reading of half a second past 1700000000. *)
Lemma timestamps_whole_seconds_witness :
  (0 <= Samples.time_time 0)%Q
  /\ py_int (Samples.time_time 0) * 1000 = 1700000000000
  /\ (inject_Z 1700000000 <= Samples.time_time 0)%Q
  /\ (Samples.time_time 0 < inject_Z 1700000001)%Q
  /\ (exists report' sm,
        schema_samples (Samples.time_time 0) empty_report
          Samples.raw_events_node "dbt" = (report', Ok sm)
        /\ time (created sm) = 1700000000000
        /\ time (lastModified sm) = 1700000000000).
Proof.
  assert (H0 : (0 <= Samples.time_time 0)%Q) by (vm_compute; discriminate).
  destruct (timestamps_whole_seconds Samples.py_str Samples.POSTGRES_TYPES_MAP
              Samples.SNOWFLAKE_TYPES_MAP Samples.resolve_postgres_modified_type
              Samples.call_vendor_class
              (Samples.time_time 0) [] empty_report Samples.raw_events_node "dbt")
    as (_ & Hs & _ & Ht).
  destruct (Ht H0) as [Hlo Hhi].
  split; [exact H0|]. split; [reflexivity|].
  split; [exact Hlo|]. split; [exact Hhi|].
  eexists _, _. split; [reflexivity|].
  apply (Hs _ _ eq_refl).
Defined.



(** C2 on the sample manifest and catalog. *)
Lemma materialization_and_upstreams_witness :
  exists ents,
    extract_samples true "postgres" "PROD" Samples.allow_all = Ok ents
    /\ map upstream_urns ents
       = [["urn:li:dataset:(urn:li:dataPlatform:postgres,db.public.raw_events,PROD)"];
          []]
    /\ map materialization ents = [JStr "table"; JStr "BASE TABLE"]
    /\ (forall key node,
          In (key, node)
             (dict_merge Samples.manifest_nodes Samples.manifest_sources) ->
          passes_filter Samples.allow_all node = Ok true ->
          exists d,
            In d ents /\ dbt_name d = key
            /\ model_or_source Samples.py_str
                 (dict_merge Samples.manifest_nodes Samples.manifest_sources)
                 (dict_merge Samples.catalog_nodes Samples.catalog_sources)
                 true "postgres" "PROD" key node d)
    /\ (forall d, In d ents ->
          exists node,
            In (dbt_name d, node)
               (dict_merge Samples.manifest_nodes Samples.manifest_sources)
            /\ passes_filter Samples.allow_all node = Ok true
            /\ model_or_source Samples.py_str
                 (dict_merge Samples.manifest_nodes Samples.manifest_sources)
                 (dict_merge Samples.catalog_nodes Samples.catalog_sources)
                 true "postgres" "PROD" (dbt_name d) node d).
Proof.
  eexists. split; [reflexivity|].
  split; [reflexivity|]. split; [reflexivity|].
  apply (materialization_and_upstreams Samples.py_str). reflexivity.
Defined.

(** C8 with schema loading off, where the source goes by its identifier. *)
Lemma logical_name_selection_witness :
  exists ents,
    extract_samples false "postgres" "PROD" Samples.allow_all = Ok ents
    /\ map name ents = [JStr "orders"; JStr "raw_events_v1"]
    /\ forall d, In d ents ->
         named_by_rule Samples.py_str
           (dict_merge Samples.manifest_nodes Samples.manifest_sources)
           false "postgres" "PROD" d.
Proof.
  eexists. split; [reflexivity|]. split; [reflexivity|].
  apply (logical_name_selection Samples.py_str
           (dict_merge Samples.manifest_nodes Samples.manifest_sources)
           (dict_merge Samples.catalog_nodes Samples.catalog_sources)
           false "postgres" "PROD" Samples.allow_all).
  reflexivity.
Defined.

(** C5 with schema loading on, then off. *)
Lemma columns_and_schema_loading_witness :
  (exists ents,
      extract_samples true "postgres" "PROD" Samples.allow_all = Ok ents
      /\ map (fun d => length (columns d)) ents = [3; 2]%nat
      /\ (forall d, In d ents ->
            columns_rule
              (dict_merge Samples.catalog_nodes Samples.catalog_sources) true d)
      /\ (forall wu,
            In wu (yielded (run_samples
                              (create (Samples.config true Samples.allow_all))
                              Samples.manifest Samples.catalog)) ->
            existsb is_schema_aspect (wu_aspects wu) = true))
  /\ (exists ents,
        extract_samples false "postgres" "PROD" Samples.allow_all = Ok ents
        /\ map (fun d => length (columns d)) ents = [0; 0]%nat
        /\ (forall d, In d ents ->
              columns_rule
                (dict_merge Samples.catalog_nodes Samples.catalog_sources)
                false d)
        /\ (forall wu,
              In wu (yielded (run_samples
                                (create (Samples.config false Samples.allow_all))
                                Samples.manifest Samples.catalog)) ->
              existsb is_schema_aspect (wu_aspects wu) = false)).
Proof.
  split; eexists; (split; [reflexivity|]); (split; [reflexivity|]); split.
  - eapply (proj1 (columns_and_schema_loading Samples.py_str
                     Samples.POSTGRES_TYPES_MAP Samples.SNOWFLAKE_TYPES_MAP
                     Samples.resolve_postgres_modified_type
                     Samples.call_vendor_class Samples.time_time
                     (dict_merge Samples.manifest_nodes Samples.manifest_sources)
                     (dict_merge Samples.catalog_nodes Samples.catalog_sources)
                     true "postgres" "PROD" Samples.allow_all _
                     (create (Samples.config true Samples.allow_all))
                     Samples.manifest Samples.catalog)).
    reflexivity.
  - apply (proj2 (columns_and_schema_loading Samples.py_str
                    Samples.POSTGRES_TYPES_MAP Samples.SNOWFLAKE_TYPES_MAP
                    Samples.resolve_postgres_modified_type
                    Samples.call_vendor_class Samples.time_time
                    [] [] true "postgres" "PROD" Samples.allow_all []
                    (create (Samples.config true Samples.allow_all))
                    Samples.manifest Samples.catalog)).
  - eapply (proj1 (columns_and_schema_loading Samples.py_str
                     Samples.POSTGRES_TYPES_MAP Samples.SNOWFLAKE_TYPES_MAP
                     Samples.resolve_postgres_modified_type
                     Samples.call_vendor_class Samples.time_time
                     (dict_merge Samples.manifest_nodes Samples.manifest_sources)
                     (dict_merge Samples.catalog_nodes Samples.catalog_sources)
                     false "postgres" "PROD" Samples.allow_all _
                     (create (Samples.config false Samples.allow_all))
                     Samples.manifest Samples.catalog)).
    reflexivity.
  - apply (proj2 (columns_and_schema_loading Samples.py_str
                    Samples.POSTGRES_TYPES_MAP Samples.SNOWFLAKE_TYPES_MAP
                    Samples.resolve_postgres_modified_type
                    Samples.call_vendor_class Samples.time_time
                    [] [] true "postgres" "PROD" Samples.allow_all []
                    (create (Samples.config false Samples.allow_all))
                    Samples.manifest Samples.catalog)).
Defined.

(** C7 on the sample documents: two records, each with its lineage. *)
Lemma lineage_one_entry_per_upstream_witness :
  exists nodes,
    load_samples Samples.manifest Samples.catalog false "postgres" "PROD"
      Samples.allow_all = Ok nodes
    /\ Forall2 carries_lineage nodes
         (yielded (run_samples (create (Samples.config false Samples.allow_all))
                     Samples.manifest Samples.catalog))
    /\ length (yielded (run_samples (create (Samples.config false Samples.allow_all))
                          Samples.manifest Samples.catalog))
       = 2%nat.
Proof.
  eexists. split; [reflexivity|].
  destruct (lineage_one_entry_per_upstream Samples.py_str
              Samples.POSTGRES_TYPES_MAP Samples.SNOWFLAKE_TYPES_MAP
              Samples.resolve_postgres_modified_type
              Samples.call_vendor_class Samples.time_time
              0%Q [] (create (Samples.config false Samples.allow_all))
              Samples.manifest Samples.catalog) as (_ & _ & _ & H).
  destruct (H _ eq_refl) as [HF Hlen].
  split; [exact HF | exact (Hlen eq_refl)].
Defined.

(** The claim C6 as it stands fails on a catalog entry that lists its
    columns out of index order: they stay as listed. *)
Lemma get_columns_out_of_index_order :
  get_columns Samples.raw_events_catalog = Ok (columns Samples.raw_events_node)
  /\ map col_index (columns Samples.raw_events_node) = [JInt 2; JInt 1]
  /\ in_index_order (columns Samples.raw_events_node) = false.
Proof. repeat split; reflexivity. Qed.

(** C6 as amended, on the same catalog entry. *)
Lemma columns_follow_document_order_witness :
  in_document_order Samples.raw_events_catalog (columns Samples.raw_events_node)
  /\ exists report' sm,
       schema_samples 0%Q empty_report Samples.raw_events_node "dbt"
       = (report', Ok sm)
       /\ Forall2 field_of (columns Samples.raw_events_node) (fields sm).
Proof.
  split.
  - apply (columns_follow_document_order Samples.py_str
             Samples.POSTGRES_TYPES_MAP Samples.SNOWFLAKE_TYPES_MAP
             Samples.resolve_postgres_modified_type Samples.call_vendor_class
             Samples.raw_events_catalog (columns Samples.raw_events_node)
             0%Q empty_report empty_report Samples.raw_events_node "dbt"
             {| schemaName := ""; platform := ""; version := 0; hash := "";
                platformSchema := {| tableSchema := "" |};
                created := {| time := 0; actor := "" |};
                lastModified := {| time := 0; actor := "" |};
                fields := [] |}).
    reflexivity.
  - eexists _, _. split; [reflexivity|].
    eapply (columns_follow_document_order Samples.py_str
              Samples.POSTGRES_TYPES_MAP Samples.SNOWFLAKE_TYPES_MAP
              Samples.resolve_postgres_modified_type Samples.call_vendor_class
              Samples.raw_events_catalog [] 0%Q empty_report).
    reflexivity.
Defined.

(** The claim C3 as it stands fails on an entry the node-type filter
    rejects: its dependency key is in no map, and the run goes through. *)
Lemma filtered_entry_dangling_dependency :
  In ("model.shop.late", Samples.dangling)
     (dict_merge Samples.dangling_nodes Samples.manifest_sources)
  /\ depends_on_nodes Samples.dangling = Ok (JList [JStr "model.shop.gone"])
  /\ dict_get "model.shop.gone"
       (dict_merge Samples.dangling_nodes Samples.manifest_sources) = None
  /\ raised (run_samples (create (Samples.config false Samples.deny_models))
               Samples.manifest_dangling Samples.catalog) = None
  /\ map id (yielded (run_samples (create (Samples.config false Samples.deny_models))
                        Samples.manifest_dangling Samples.catalog))
     = ["urn:li:dataset:(urn:li:dataPlatform:postgres,db.public.raw_events_v1,PROD)"].
Proof. repeat split; try reflexivity. left. reflexivity. Qed.

(** C3 as amended, on the same manifest with the filter letting models
    through. *)
Lemma join_error_aborts_witness :
  (exists e,
      load_samples Samples.manifest_dangling Samples.catalog false "postgres"
        "PROD" Samples.allow_all = Err e
      /\ run_samples (create (Samples.config false Samples.allow_all))
           Samples.manifest_dangling Samples.catalog
         = {| yielded := []; raised := Some e; final_report := empty_report |})
  /\ run_samples (create (Samples.config false Samples.allow_all))
       Samples.manifest_dangling Samples.catalog
     = {| yielded := [];
          raised := Some (KeyError (JStr "model.shop.gone"));
          final_report := empty_report |}.
Proof.
  destruct (join_error_aborts Samples.py_str Samples.POSTGRES_TYPES_MAP
              Samples.SNOWFLAKE_TYPES_MAP Samples.resolve_postgres_modified_type
              Samples.call_vendor_class
              Samples.time_time
              (create (Samples.config false Samples.allow_all))
              Samples.manifest_dangling Samples.catalog
              Samples.dangling_nodes Samples.manifest_sources
              Samples.catalog_nodes Samples.catalog_sources
              "model.shop.late" Samples.dangling "model.shop.gone")
    as [HA HB]; try reflexivity.
  - left. reflexivity.
  - eapply missing_dependency; try reflexivity. left. reflexivity.
  - split; [exact HA|].
    apply (HB [] [("source.shop.raw_events", Samples.raw_events)] []);
      try reflexivity.
    eapply (first_missing_dependency _ _ _ _ _ _ _ _ _ _ [] _ [] []);
      try reflexivity.
    exists [("resource_type", JStr "model");
            ("database", JStr "db");
            ("schema", JStr "public");
            ("original_file_path", JStr "models/late.sql");
            ("name", JStr "late");
            ("config", JDict [("materialized", JStr "view")]);
            ("depends_on", JDict [("nodes", JList [JStr "model.shop.gone"])])].
    eexists _, _, _, _. repeat split; reflexivity.
Defined.

(** * The further properties on the sample documents *)

Local Abbreviation merged_nodes :=
  (dict_merge Samples.manifest_nodes Samples.manifest_sources).

Local Abbreviation merged_catalog :=
  (dict_merge Samples.catalog_nodes Samples.catalog_sources).

Local Abbreviation type_samples :=
  (get_column_type Samples.py_str Samples.POSTGRES_TYPES_MAP
     Samples.SNOWFLAKE_TYPES_MAP Samples.resolve_postgres_modified_type
     Samples.call_vendor_class).

Local Abbreviation unmapped_samples :=
  (is_unmapped Samples.POSTGRES_TYPES_MAP Samples.SNOWFLAKE_TYPES_MAP
     Samples.resolve_postgres_modified_type).

Local Abbreviation upstreams_samples :=
  (get_upstreams Samples.py_str).

(** X3 on the sample tables: [date] is in the Snowflake table, [text] in
    the Postgres one. *)
Lemma field_type_mapping_precedence_witness :
  dict_get "date"
    (_field_type_mapping Samples.POSTGRES_TYPES_MAP Samples.SNOWFLAKE_TYPES_MAP)
  = dict_get "date" Samples.SNOWFLAKE_TYPES_MAP
  /\ dict_get "text"
       (_field_type_mapping Samples.POSTGRES_TYPES_MAP Samples.SNOWFLAKE_TYPES_MAP)
     = dict_get "text" Samples.POSTGRES_TYPES_MAP.
Proof.
  split.
  - apply (field_type_mapping_precedence Samples.POSTGRES_TYPES_MAP
             Samples.SNOWFLAKE_TYPES_MAP "date"); nodup_keys.
  - apply (field_type_mapping_precedence Samples.POSTGRES_TYPES_MAP
             Samples.SNOWFLAKE_TYPES_MAP "text"); nodup_keys.
Defined.

(** X4 on [integer], which neither sample table has. *)
Lemma listed_types_never_warn_witness :
  exists c,
    dict_get "integer" sql_field_types = Some (Some c)
    /\ type_samples empty_report "model.shop.orders" (JStr "integer")
       = (empty_report, Ok {| data_type := c |}).
Proof.
  apply (listed_types_never_warn Samples.py_str Samples.POSTGRES_TYPES_MAP
           Samples.SNOWFLAKE_TYPES_MAP Samples.resolve_postgres_modified_type
           Samples.call_vendor_class); reflexivity.
Defined.

(** X5 on a type that is not mapped. *)
Lemma get_column_type_report_witness :
  exists report' res,
    type_samples empty_report "model.shop.orders" (JStr "totally_unknown_type")
    = (report', res)
    /\ workunit_ids report' = workunit_ids empty_report
    /\ (report' = empty_report
        \/ (res = Ok {| data_type := NullTypeClass |}
            /\ unmapped_samples (JStr "totally_unknown_type") = true
            /\ warnings report'
               = (warnings empty_report
                    ++ [unmapped_warning Samples.py_str "model.shop.orders"
                          (JStr "totally_unknown_type")])%list))
    /\ (forall e, res = Err e -> report' = empty_report).
Proof.
  eexists _, _. split; [reflexivity|].
  eapply (get_column_type_report Samples.py_str Samples.POSTGRES_TYPES_MAP
            Samples.SNOWFLAKE_TYPES_MAP Samples.resolve_postgres_modified_type
            Samples.call_vendor_class).
  reflexivity.
Defined.

(** X6 on the node of [orders], one of whose three types is not mapped. *)
Lemma get_schema_metadata_report_witness :
  exists report' res,
    schema_samples 0%Q empty_report Samples.orders_node "dbt" = (report', res)
    /\ workunit_ids report' = workunit_ids empty_report
    /\ exists new,
        warnings report' = (warnings empty_report ++ new)%list
        /\ Forall (fun w => fst w = "model.shop.orders") new
        /\ (length new <= 3)%nat.
Proof.
  eexists _, _. split; [reflexivity|].
  eapply (get_schema_metadata_report Samples.py_str Samples.POSTGRES_TYPES_MAP
            Samples.SNOWFLAKE_TYPES_MAP Samples.resolve_postgres_modified_type
            Samples.call_vendor_class
            0%Q empty_report _ Samples.orders_node "dbt").
  reflexivity.
Defined.

(** X7 on the same node: one warning, for [totally_unknown_type]. *)
Lemma get_schema_metadata_warnings_witness :
  exists report' sm,
    schema_samples 0%Q empty_report Samples.orders_node "dbt"
    = (report', Ok sm)
    /\ warnings report'
       = [("model.shop.orders",
           "unable to map type totally_unknown_type to metadata schema")]
    /\ length (fields sm) = 3%nat.
Proof.
  eexists _, _. split; [reflexivity|].
  eapply (get_schema_metadata_warnings Samples.py_str Samples.POSTGRES_TYPES_MAP
            Samples.SNOWFLAKE_TYPES_MAP Samples.resolve_postgres_modified_type
            Samples.call_vendor_class
            0%Q empty_report _ Samples.orders_node "dbt").
  reflexivity.
Defined.

(** X8 on the same node. *)
Lemma get_schema_metadata_total_witness :
  exists report' sm,
    schema_samples 0%Q empty_report Samples.orders_node "dbt"
    = (report', Ok sm)
    /\ Forall2 field_of (columns Samples.orders_node) (fields sm)
    /\ Forall2 (fun c f =>
                  unmapped_samples (col_data_type c) = true ->
                  data_type (field_type f) = NullTypeClass)
         (columns Samples.orders_node) (fields sm).
Proof.
  apply (get_schema_metadata_total Samples.py_str Samples.POSTGRES_TYPES_MAP
           Samples.SNOWFLAKE_TYPES_MAP Samples.resolve_postgres_modified_type
           Samples.call_vendor_class).
  intros c [<- | [<- | [<- | []]]]; eexists; (split; [reflexivity|]).
  - reflexivity.
  - exists (Some StringTypeClass). split; [reflexivity|].
    intros c [= <-]. reflexivity.
  - exists None. split; [reflexivity|]. intros c H. discriminate H.
Defined.

(** X9 on the sample manifest. *)
Lemma extract_keeps_manifest_order_witness :
  exists ents,
    extract_samples true "postgres" "PROD" Samples.allow_all = Ok ents
    /\ map dbt_name ents = ["model.shop.orders"; "source.shop.raw_events"].
Proof.
  eexists. split; [reflexivity|].
  apply (extract_keeps_manifest_order Samples.py_str merged_nodes
           merged_catalog true "postgres" "PROD" Samples.allow_all).
  reflexivity.
Defined.

(** X10 on a manifest with a dangling dependency, no catalog and a filter
    that lets nothing through. *)
Lemma rejected_entries_not_read_witness :
  extract_dbt_entities Samples.py_str
    (dict_merge Samples.dangling_nodes Samples.manifest_sources) []
    true "postgres" "PROD" Samples.deny_all = Ok [].
Proof.
  apply rejected_entries_not_read.
  intros key node H. vm_compute in H.
  destruct H as [[= <- <-] | [[= <- <-] | []]]; reflexivity.
Defined.

(** X11 on the sample catalog and the same with one more entry. *)
Lemma catalog_read_by_manifest_key_witness :
  extract_samples true "postgres" "PROD" Samples.allow_all
  = extract_dbt_entities Samples.py_str merged_nodes
      (merged_catalog ++ [("model.other.unrelated", JNull)])%list
      true "postgres" "PROD" Samples.allow_all.
Proof.
  apply catalog_read_by_manifest_key.
  intros key H. vm_compute in H.
  destruct H as [<- | [<- | []]]; reflexivity.
Defined.

(** X12 on a manifest of two models. *)
Lemma models_without_schemas_need_no_catalog_witness :
  extract_dbt_entities Samples.py_str Samples.models_only merged_catalog
    false "postgres" "PROD" Samples.allow_all
  = extract_dbt_entities Samples.py_str Samples.models_only []
      false "postgres" "PROD" Samples.allow_all.
Proof.
  apply models_without_schemas_need_no_catalog.
  intros key node config [[= <- <-] | [[= <- <-] | []]] [= <-]; reflexivity.
Defined.

(** X13 on the sample manifest: the upstream of [orders] is the
    identifier of the node of [raw_events]. *)
Lemma upstream_is_node_identifier_witness :
  exists ents urns,
    extract_samples true "postgres" "PROD" Samples.allow_all = Ok ents
    /\ upstreams_samples (JList [JStr "source.shop.raw_events"]) merged_nodes
         true "postgres" "PROD" = Ok urns
    /\ exists items,
        py_iter (JList [JStr "source.shop.raw_events"]) = Ok items
        /\ Forall2 (fun item upstream_urn =>
                      forall d, In d ents -> item = JStr (dbt_name d) ->
                                upstream_urn = datahub_urn d)
             items urns.
Proof.
  eexists _, _. split; [reflexivity|]. split; [reflexivity|].
  apply (upstream_is_node_identifier Samples.py_str merged_nodes
           merged_catalog true "postgres" "PROD" Samples.allow_all);
    [nodup_keys | reflexivity | reflexivity].
Defined.

(** X14 on a key listed twice. *)
Lemma get_upstreams_app_witness :
  upstreams_samples
    (JList ([JStr "source.shop.raw_events"] ++ [JStr "source.shop.raw_events"]))
    merged_nodes false "postgres" "PROD"
  = Ok (["urn:li:dataset:(urn:li:dataPlatform:postgres,db.public.raw_events_v1,PROD)"]
          ++ ["urn:li:dataset:(urn:li:dataPlatform:postgres,db.public.raw_events_v1,PROD)"])%list.
Proof.
  apply (get_upstreams_app Samples.py_str
           [JStr "source.shop.raw_events"] [JStr "source.shop.raw_events"]
           merged_nodes false "postgres" "PROD"); reflexivity.
Defined.

(** X15 on the catalog entry of [raw_events]. *)
Lemma get_columns_complete_witness :
  get_columns Samples.raw_events_catalog
  = Ok (columns Samples.raw_events_node).
Proof.
  apply (get_columns_complete Samples.raw_events_catalog
           [("payload", Samples.column "payload" "text" 2);
            ("at", Samples.column "at" "date" 1)]);
    [reflexivity | nodup_keys |].
  repeat constructor.
Defined.

(** X16 on a model written without its schema. *)
Lemma missing_field_is_KeyError_witness :
  extract_dbt_entities Samples.py_str
    [("model.shop.broken", JDict Samples.no_schema_fields)] []
    false "postgres" "PROD" Samples.allow_all
  = Err (KeyError (JStr "schema")).
Proof.
  apply (missing_field_is_KeyError Samples.py_str
           [("model.shop.broken", JDict Samples.no_schema_fields)] []
           false "postgres" "PROD" Samples.allow_all [] [] []
           "model.shop.broken" Samples.no_schema_fields "schema");
    reflexivity.
Defined.

(** X17 on the ephemeral model, with schema loading on and an empty
    catalog. *)
Lemma model_without_columns_needs_no_catalog_witness :
  exists d,
    extract_entity Samples.py_str Samples.models_only [] true "postgres"
      "PROD" Samples.allow_all "model.shop.staging"
      (JDict Samples.staging_fields) = Ok (Some d)
    /\ materialization d = JStr "ephemeral"
    /\ columns d = [].
Proof.
  eexists. split.
  - eapply (model_without_columns_needs_no_catalog Samples.py_str
              Samples.models_only [] true "postgres" "PROD" Samples.allow_all
              "model.shop.staging" Samples.staging_fields);
      try reflexivity.
    left. reflexivity.
  - split; reflexivity.
Defined.

(** X18 on a parsed manifest with no key at all, on one with only
    [nodes], and on one whose [sources] is null; the catalog parsed to
    null. *)
Lemma manifest_value_read_first_witness :
  load_samples (JDict []) JNull true "postgres" "PROD" Samples.allow_all
  = Err (KeyError (JStr "nodes"))
  /\ load_samples (JDict [("nodes", JDict [])]) JNull true "postgres" "PROD"
       Samples.allow_all
     = Err (KeyError (JStr "sources"))
  /\ load_samples (JDict [("nodes", JDict []); ("sources", JNull)]) JNull true
       "postgres" "PROD" Samples.allow_all
     = Err TypeError.
Proof.
  split; [|split].
  - apply (proj1 (manifest_value_read_first Samples.py_str [] JNull JNull JNull
                    true "postgres" "PROD" Samples.allow_all)).
    reflexivity.
  - apply (proj1 (proj2 (manifest_value_read_first Samples.py_str
                           [("nodes", JDict [])] JNull (JDict []) JNull
                           true "postgres" "PROD" Samples.allow_all)));
      reflexivity.
  - apply (proj2 (proj2 (manifest_value_read_first Samples.py_str
                           [("nodes", JDict []); ("sources", JNull)]
                           JNull (JDict []) JNull
                           true "postgres" "PROD" Samples.allow_all)));
      try reflexivity.
    intros dn ds _ H. discriminate H.
Defined.

(** X19 on a [nodes] map that has an entry under the key of a source. *)
Lemma dict_merge_key_order_witness :
  map fst (dict_merge Samples.overlap_nodes Samples.manifest_sources)
  = ["source.shop.raw_events"; "model.shop.orders"].
Proof.
  apply (dict_merge_key_order Samples.overlap_nodes Samples.manifest_sources).
  nodup_keys.
Defined.

(** X20 on the sample documents, with schema loading on. *)
Lemma yielded_records_acknowledged_witness :
  workunit_ids
    (final_report (run_samples (create (Samples.config true Samples.allow_all))
                     Samples.manifest Samples.catalog))
  = map id (yielded (run_samples (create (Samples.config true Samples.allow_all))
                       Samples.manifest Samples.catalog))
  /\ map id (yielded (run_samples (create (Samples.config true Samples.allow_all))
                        Samples.manifest Samples.catalog))
     = ["urn:li:dataset:(urn:li:dataPlatform:postgres,db.public.orders,PROD)";
        "urn:li:dataset:(urn:li:dataPlatform:postgres,db.public.raw_events,PROD)"].
Proof.
  destruct (yielded_records_acknowledged Samples.py_str
              Samples.POSTGRES_TYPES_MAP Samples.SNOWFLAKE_TYPES_MAP
              Samples.resolve_postgres_modified_type
              Samples.call_vendor_class Samples.time_time
              (create (Samples.config true Samples.allow_all))
              Samples.manifest Samples.catalog) as (H1 & _ & H3).
  split; [exact H1 | exact (H3 _ eq_refl)].
Defined.

(** X21 on the sample documents, with schema loading off. *)
Lemma no_schemas_no_failure_witness :
  raised (run_samples (create (Samples.config false Samples.allow_all))
            Samples.manifest Samples.catalog) = None
  /\ map id (yielded (run_samples (create (Samples.config false Samples.allow_all))
                        Samples.manifest Samples.catalog))
     = ["urn:li:dataset:(urn:li:dataPlatform:postgres,db.public.orders,PROD)";
        "urn:li:dataset:(urn:li:dataPlatform:postgres,db.public.raw_events_v1,PROD)"]
  /\ warnings
       (final_report (run_samples (create (Samples.config false Samples.allow_all))
                        Samples.manifest Samples.catalog)) = [].
Proof.
  apply (no_schemas_no_failure Samples.py_str
           Samples.POSTGRES_TYPES_MAP Samples.SNOWFLAKE_TYPES_MAP
           Samples.resolve_postgres_modified_type
           Samples.call_vendor_class Samples.time_time
           (create (Samples.config false Samples.allow_all))
           Samples.manifest Samples.catalog _ eq_refl eq_refl).
Defined.

(** X22 on the sample documents, with schema loading on. *)
Lemma warnings_name_extracted_nodes_witness :
  exists nodes new,
    load_samples Samples.manifest Samples.catalog true "postgres" "PROD"
      Samples.allow_all = Ok nodes
    /\ warnings
         (final_report (run_samples (create (Samples.config true Samples.allow_all))
                          Samples.manifest Samples.catalog))
       = (warnings empty_report ++ new)%list
    /\ Forall (fun x => exists node, In node nodes /\ fst x = dbt_name node) new.
Proof.
  eexists.
  destruct (warnings_name_extracted_nodes Samples.py_str
              Samples.POSTGRES_TYPES_MAP Samples.SNOWFLAKE_TYPES_MAP
              Samples.resolve_postgres_modified_type
              Samples.call_vendor_class Samples.time_time
              (create (Samples.config true Samples.allow_all))
              Samples.manifest Samples.catalog _ eq_refl) as (new & Hw & HF).
  exists new. split; [reflexivity|]. split; [exact Hw | exact HF].
Defined.

(** X23 on the first record of the sample run. *)
Lemma schema_platform_is_dbt_witness :
  exists wu sm,
    In wu (yielded (run_samples (create (Samples.config true Samples.allow_all))
                      Samples.manifest Samples.catalog))
    /\ In (SchemaAspect sm) (wu_aspects wu)
    /\ platform sm = "urn:li:dataPlatform:dbt"
    /\ created sm = lastModified sm
    /\ Forall (fun f => nullable f = false /\ recursive f = false) (fields sm).
Proof.
  eexists _, _. split; [left; reflexivity|].
  split; [right; right; left; reflexivity|].
  eapply (schema_platform_is_dbt Samples.py_str
            Samples.POSTGRES_TYPES_MAP Samples.SNOWFLAKE_TYPES_MAP
            Samples.resolve_postgres_modified_type
            Samples.call_vendor_class Samples.time_time
            (Samples.config true Samples.allow_all)
            Samples.manifest Samples.catalog).
  - left. reflexivity.
  - right. right. left. reflexivity.
Defined.
